(** * zecstats-totem: the aggregation and caching core of [server.js]

    A shallow embedding of the Express data proxy: the price cache
    ([getCachedPriceData]), the value pool reconciler ([extractValuePools]),
    the sanitizer ([sanitizeNumber]) and the [/api/status] handler, with the
    properties of the specification stated over them.

    JavaScript numbers are IEEE 754 binary64 values: they are Rocq's
    primitive floats, with the same arithmetic and the same comparisons. *)

From Stdlib Require Import Floats String List Bool ZArith Lia DecimalString.
Import ListNotations.

Local Open Scope string_scope.
Local Open Scope list_scope.

Set Warnings "-register-all".

(** ** The slice of JavaScript that [server.js] uses *)

Module Js.

(** A value that reaches the server: what [JSON.parse] (or axios) builds from
    an upstream body, and [undefined] for what a lookup does not find.
    An object lists its own properties, a name at most once (a lookup takes
    the first binding). *)
Inductive JsVal : Type :=
| JUndefined
| JNull
| JBool (b : bool)
| JNum (x : float)
| JStr (s : string)
| JArr (elems : list JsVal)
| JObj (props : list (string * JsVal)).

(** What a [throw] carries: a [TypeError] of the language, or the
    [Error] that [getJSON] builds ([`${url} -> HTTP ${status}`]). *)
Inductive Exn : Type :=
| TypeError
| Error (message : string).

(** The completion of an evaluation: a value, or an exception. *)
Inductive Completion (A : Type) : Type :=
| Normal (a : A)
| Throw (e : Exn).

Arguments Normal {A} a.
Arguments Throw {A} e.

Definition bind {A B : Type} (c : Completion A) (k : A -> Completion B)
  : Completion B :=
  match c with
  | Normal a => k a
  | Throw e => Throw e
  end.

Notation "x <- c ;; k" := (bind c (fun x => k))
  (at level 61, c at next level, right associativity).

(** [ToBoolean]: the falsy values are [undefined], [null], [false], [0],
    [-0], [NaN] and the empty string. *)
Definition ToBoolean (v : JsVal) : bool :=
  match v with
  | JUndefined | JNull => false
  | JBool b => b
  | JNum x => negb (PrimFloat.eqb x 0 || PrimFloat.is_nan x)
  | JStr s => negb (String.eqb s "")
  | JArr _ | JObj _ => true
  end.

(** [v === null || v === undefined]. *)
Definition isNullish (v : JsVal) : bool :=
  match v with
  | JUndefined | JNull => true
  | _ => false
  end.

(** [a ?? b]. *)
Definition coalesce (a b : JsVal) : JsVal :=
  if isNullish a then b else a.

Infix "??" := coalesce (at level 45, left associativity).

Fixpoint lookup (k : string) (props : list (string * JsVal)) : JsVal :=
  match props with
  | [] => JUndefined
  | (k', v) :: rest => if String.eqb k' k then v else lookup k rest
  end.

(** [v.k] on a value that is neither [null] nor [undefined], for a name [k]
    that no builtin prototype defines (every name [server.js] reads, [length]
    apart, which it reads from an array through [arrayLength] and otherwise
    only from a plain object): the own property of an object, [undefined]
    on an array or a primitive. *)
Definition getOwn (v : JsVal) (k : string) : JsVal :=
  match v with
  | JObj props => lookup k props
  | _ => JUndefined
  end.

(** [v.k]: a [TypeError] on [null] and [undefined]. *)
Definition member (v : JsVal) (k : string) : Completion JsVal :=
  if isNullish v then Throw TypeError else Normal (getOwn v k).

(** [v?.k]. *)
Definition optMember (v : JsVal) (k : string) : JsVal :=
  if isNullish v then JUndefined else getOwn v k.

Notation "v ?. k" := (optMember v k) (at level 40, left associativity).

(** [a.length] of an array, as a number. *)
Definition arrayLength (elems : list JsVal) : float :=
  PrimFloat.of_uint63 (Uint63.of_Z (Z.of_nat (length elems))).

(** [a === s] for a string [s]. *)
Definition strictEqString (a : JsVal) (s : string) : bool :=
  match a with
  | JStr t => String.eqb t s
  | _ => false
  end.

(** [Array.prototype.find]: the first element on which the callback is
    truthy, [undefined] when there is none; an exception of the callback
    ends the search. *)
Fixpoint Array_find (f : JsVal -> Completion bool) (elems : list JsVal)
  : Completion JsVal :=
  match elems with
  | [] => Normal JUndefined
  | p :: rest =>
      b <- f p ;;
      if b then Normal p else Array_find f rest
  end.

(** *** Conversions

    [StringToNumber] (the number a string denotes, [NaN] when it denotes
    none) and [Number::toString] are builtins of the language, in part
    implementation-defined (the rounding of long decimal literals); the
    conversions are stated over every such pair. *)
Section Conversions.

Variable StringToNumber : string -> float.
Variable NumberToString : float -> string.

(** [ToString] on a value built by [JSON.parse]. An array is joined as
    [Array.prototype.join] does, [null] and [undefined] elements as the empty
    string. A plain object prints as [[object Object]] unless it has an own
    property [toString], which, not being callable, leaves [ToPrimitive] with
    no method to call: a [TypeError]. *)
Fixpoint ToString (v : JsVal) : Completion string :=
  match v with
  | JUndefined => Normal "undefined"
  | JNull => Normal "null"
  | JBool b => Normal (if b then "true" else "false")
  | JNum x => Normal (NumberToString x)
  | JStr s => Normal s
  | JArr elems =>
      (fix join (l : list JsVal) : Completion string :=
         match l with
         | [] => Normal ""
         | e :: rest =>
             s <- (if isNullish e then Normal "" else ToString e) ;;
             match rest with
             | [] => Normal s
             | _ :: _ => r <- join rest ;; Normal (s ++ "," ++ r)%string
             end
         end) elems
  | JObj props =>
      if existsb (fun kv => String.eqb (fst kv) "toString") props
      then Throw TypeError
      else Normal "[object Object]"
  end.

(** [ToNumber], which is what [Number(v)] computes. *)
Definition ToNumber (v : JsVal) : Completion float :=
  match v with
  | JUndefined => Normal nan
  | JNull => Normal 0%float
  | JBool b => Normal (if b then 1%float else 0%float)
  | JNum x => Normal x
  | JStr s => Normal (StringToNumber s)
  | JArr _ | JObj _ => s <- ToString v ;; Normal (StringToNumber s)
  end.

End Conversions.

End Js.

(** ** The server *)

Module Server.

Import Js.

Local Open Scope float_scope.

(** *** [sanitizeNumber], [extractValuePools] and the [/api/status] handler *)

Section Handler.

Variable StringToNumber : string -> float.
Variable NumberToString : float -> string.

Abbreviation Number := (ToNumber StringToNumber NumberToString).

(** [sanitizeNumber(value)]: [null] (here [None]) or a number. *)
Definition sanitizeNumber (value : JsVal) : Completion (option float) :=
  if isNullish value then Normal None
  else
    num <- match value with
           | JNum x => Normal x
           | _ => Number value
           end ;;
    Normal (if PrimFloat.is_finite num then Some num else None).

(** The object [extractValuePools] returns. *)
Record ValuePools : Type := {
  transparent : float;
  sprout : float;
  sapling : float;
  orchard : float;
  lockbox : float;
  shielded : float;
  totalChain : float
}.

(** [Array.isArray(info?.valuePools) ? info.valuePools : []]. *)
Definition poolRecords (info : JsVal) : list JsVal :=
  match info ?. "valuePools" with
  | JArr vp => vp
  | _ => []
  end.

(** The callback [(p) => p.id === id]. *)
Definition hasId (id : string) (p : JsVal) : Completion bool :=
  pid <- member p "id" ;; Normal (strictEqString pid id).

(** [Number(vp.find((p) => p.id === id)?.chainValue ?? 0)]. *)
Definition find (vp : list JsVal) (id : string) : Completion float :=
  p <- Array_find (hasId id) vp ;;
  Number (p ?. "chainValue" ?? JNum 0).

(** [Number.isFinite(circulatingSupply) && circulatingSupply > 0
     ? circulatingSupply : totalFromInfo]. [Number.isFinite] does not
    convert: it is false on whatever is not a number. *)
Definition chooseTotal (circulatingSupply : JsVal) (totalFromInfo : float)
  : float :=
  match circulatingSupply with
  | JNum c =>
      if PrimFloat.is_finite c && (0 <? c) then c else totalFromInfo
  | _ => totalFromInfo
  end.

(** The [if] block of [extractValuePools] that infers the transparent pool:
    the value of [transparent] after it. *)
Definition inferTransparent (transparent shielded lockbox totalChain : float)
  : float :=
  if (negb (ToBoolean (JNum transparent)) || (transparent <=? 0))
     && PrimFloat.is_finite totalChain
  then
    let inferred := totalChain - shielded - lockbox in
    if PrimFloat.is_finite inferred && (0 <? inferred)
    then inferred
    else transparent
  else transparent.

Definition extractValuePools (info circulatingSupply : JsVal)
  : Completion ValuePools :=
  let vp := poolRecords info in
  transparent0 <- find vp "transparent" ;;
  sprout0 <- find vp "sprout" ;;
  sapling0 <- find vp "sapling" ;;
  orchard0 <- find vp "orchard" ;;
  lockbox0 <- find vp "lockbox" ;;
  let shielded0 := sprout0 + sapling0 + orchard0 in
  let totalFromInfo := transparent0 + shielded0 + lockbox0 in
  let totalChain0 := chooseTotal circulatingSupply totalFromInfo in
  let transparent1 :=
    inferTransparent transparent0 shielded0 lockbox0 totalChain0 in
  sanitized <- sanitizeNumber (JNum transparent1) ;;
  Normal {| transparent := match sanitized with Some t => t | None => 0 end;
            sprout := sprout0;
            sapling := sapling0;
            orchard := orchard0;
            lockbox := lockbox0;
            shielded := shielded0;
            totalChain := totalChain0 |}.

(** The object the handler sends with [res.json]. The six fields that go
    through [sanitizeNumber] are [null] or a number; [height] and
    [mempoolSize] are whatever the payloads hold. *)
Record StatusSnapshot : Type := {
  timestamp : float;
  priceUsd : option float;
  priceChange24h : option float;
  marketCapUsd : option float;
  marketCapChange24h : option float;
  marketCapChangeUsd : option float;
  circulatingSupply : option float;
  height : JsVal;
  mempoolSize : JsVal;
  valuePools : ValuePools
}.

(** What [sanitizeNumber] returned, as a value again. *)
Definition nullable (field : option float) : JsVal :=
  match field with
  | Some num => JNum num
  | None => JNull
  end.

(** [Array.isArray(priceData) ? priceData[0] ?? null : priceData?.zcash ?? null]. *)
Definition priceEntryOf (priceData : JsVal) : JsVal :=
  match priceData with
  | JArr elems => hd JUndefined elems ?? JNull
  | _ => priceData ?. "zcash" ?? JNull
  end.

(** [infoData?.blocks ?? infoData?.blockchain?.blocks
     ?? infoData?.estimatedheight ?? null]. *)
Definition heightOf (infoData : JsVal) : JsVal :=
  infoData ?. "blocks"
    ?? infoData ?. "blockchain" ?. "blocks"
    ?? infoData ?. "estimatedheight"
    ?? JNull.

(** [mempoolSize]: the length of an array, [size ?? length ?? 0] of any
    other object, and 0 otherwise ([null] included). *)
Definition mempoolSizeOf (mempoolData : JsVal) : JsVal :=
  match mempoolData with
  | JArr elems => JNum (arrayLength elems)
  | JObj _ =>
      getOwn mempoolData "size" ?? getOwn mempoolData "length" ?? JNum 0
  | _ => JNum 0
  end.

(** The body of the handler's [try] once the three requests have settled,
    [now] being the [Date.now()] of the response. *)
Definition buildSnapshot (priceData infoData mempoolData : JsVal)
  (now : float) : Completion StatusSnapshot :=
  let priceEntry := priceEntryOf priceData in
  priceUsd0 <- sanitizeNumber
                 (priceEntry ?. "current_price" ?? priceEntry ?. "usd") ;;
  priceChange24h0 <- sanitizeNumber
                       (priceEntry ?. "price_change_percentage_24h"
                          ?? priceEntry ?. "usd_24h_change") ;;
  marketCapUsd0 <- sanitizeNumber
                     (priceEntry ?. "market_cap"
                        ?? priceEntry ?. "usd_market_cap") ;;
  marketCapChange24h0 <- sanitizeNumber
                           (priceEntry ?. "market_cap_change_percentage_24h"
                              ?? JNull) ;;
  marketCapChangeUsd0 <- sanitizeNumber
                           (priceEntry ?. "market_cap_change_24h" ?? JNull) ;;
  circulatingSupply0 <- sanitizeNumber
                          (priceEntry ?. "circulating_supply" ?? JNull) ;;
  let height0 := heightOf infoData in
  pools <- extractValuePools infoData (nullable circulatingSupply0) ;;
  let mempoolSize0 := mempoolSizeOf mempoolData in
  Normal {| timestamp := now;
            priceUsd := priceUsd0;
            priceChange24h := priceChange24h0;
            marketCapUsd := marketCapUsd0;
            marketCapChange24h := marketCapChange24h0;
            marketCapChangeUsd := marketCapChangeUsd0;
            circulatingSupply := circulatingSupply0;
            height := height0;
            mempoolSize := mempoolSize0;
            valuePools := pools |}.

(** What the handler sends: [res.json(snapshot)] or
    [res.status(500).json({ error: "upstream_failed" })]. *)
Inductive Body : Type :=
| SnapshotBody (snapshot : StatusSnapshot)
| ErrorBody (error : string).

Record Response : Type := {
  status : Z;
  body : Body
}.

(** The handler of [GET /api/status], from the outcomes of the three
    requests it awaits: the promise of [getCachedPriceData()], [getJSON] of
    the info URL, and [getJSON] of the mempool URL, whose rejection
    [.catch(() => null)] turns into [null]. [Promise.all] rejects as soon as
    one of the first two does, and the [catch] of the handler answers 500
    to any exception of the [try] block. *)
Definition statusHandler (price info mempool : Completion JsVal)
  (now : float) : Response :=
  let attempt :=
    priceData <- price ;;
    infoData <- info ;;
    let mempoolData := match mempool with
                       | Normal v => v
                       | Throw _ => JNull
                       end in
    buildSnapshot priceData infoData mempoolData now in
  match attempt with
  | Normal snapshot => {| status := 200; body := SnapshotBody snapshot |}
  | Throw _ => {| status := 500; body := ErrorBody "upstream_failed" |}
  end.

End Handler.

(** *** The price cache

    [getCachedPriceData] reads and writes the one object [priceCache] and
    starts network requests; the callbacks it chains on a request run when
    the request settles. The server runs on one thread and the three
    callbacks of a chain run in consecutive microtasks, so a call and the
    settling of a request are the atomic steps of the cache. The state below
    carries [priceCache] and, to state what the cache does to the network,
    the requests made so far. *)

Section Cache.

(** [Number(process.env.PRICE_CACHE_TTL_MS ?? 60_000)]. *)
Variable PRICE_CACHE_TTL_MS : float.

(** [priceCache]; [promise] is [null] or the pending [fetchPromise], named
    by the rank of the [getJSON(PRICE_URL)] request it wraps. *)
Record PriceCache : Type := {
  data : JsVal;
  fetchedAt : float;
  promise : option nat
}.

(** What [getCachedPriceData] returns: [Promise.resolve(priceCache.data)],
    or the [fetchPromise] of a request. *)
Inductive Promise : Type :=
| Resolved (value : JsVal)
| FetchPromise (request : nat).

Record World : Type := {
  priceCache : PriceCache;
  (** the number of [getJSON(PRICE_URL)] requests made so far *)
  requests : nat;
  (** the requests that have not settled yet *)
  inFlight : list nat;
  (** how the [fetchPromise] of each settled request settled *)
  settled : list (nat * Completion JsVal)
}.

Definition initial : World :=
  {| priceCache := {| data := JNull; fetchedAt := 0; promise := None |};
     requests := 0;
     inFlight := [];
     settled := [] |}.

(** The test of the first [if]: [priceCache.data && now - priceCache.fetchedAt
    <= PRICE_CACHE_TTL_MS]. *)
Definition fresh (now : float) (c : PriceCache) : bool :=
  ToBoolean (data c) && (now - fetchedAt c <=? PRICE_CACHE_TTL_MS).

(** [getCachedPriceData()] called when [Date.now()] is [now]. *)
Definition getCachedPriceData (now : float) (w : World) : Promise * World :=
  let c := priceCache w in
  if fresh now c then (Resolved (data c), w)
  else
    match promise c with
    | Some pending => (FetchPromise pending, w)
    | None =>
        let request := requests w in
        (FetchPromise request,
         {| priceCache := {| data := data c;
                             fetchedAt := fetchedAt c;
                             promise := Some request |};
            requests := S request;
            inFlight := request :: inFlight w;
            settled := settled w |})
    end.

(** The chain [.then(...).catch(...).finally(...)] run when [request]
    settles with [outcome], [now] being the [Date.now()] of the [then]
    callback. *)
Definition settle (request : nat) (outcome : Completion JsVal) (now : float)
  (w : World) : World :=
  let c := priceCache w in
  let afterThen :=
    match outcome with
    | Normal freshData =>
        ({| data := freshData; fetchedAt := now; promise := promise c |},
         Normal freshData)
    | Throw err => (c, Throw err)
    end in
  let afterCatch :=
    match snd afterThen with
    | Normal v => Normal v
    | Throw err =>
        if ToBoolean (data (fst afterThen))
        then Normal (data (fst afterThen))
        else Throw err
    end in
  {| priceCache := {| data := data (fst afterThen);
                      fetchedAt := fetchedAt (fst afterThen);
                      promise := None |};
     requests := requests w;
     inFlight := filter (fun r => negb (Nat.eqb r request)) (inFlight w);
     settled := (request, afterCatch) :: settled w |}.

Fixpoint settlement (request : nat) (l : list (nat * Completion JsVal))
  : option (Completion JsVal) :=
  match l with
  | [] => None
  | (r, outcome) :: rest =>
      if Nat.eqb r request then Some outcome else settlement request rest
  end.

(** What a caller that awaits [p] receives in [w], [None] while [p] is
    pending. *)
Definition received (w : World) (p : Promise) : option (Completion JsVal) :=
  match p with
  | Resolved v => Some (Normal v)
  | FetchPromise request => settlement request (settled w)
  end.

(** Callers that call one after the other, no request settling in between. *)
Fixpoint callAll (times : list float) (w : World) : list Promise * World :=
  match times with
  | [] => ([], w)
  | now :: rest =>
      let (p, w1) := getCachedPriceData now w in
      let (ps, w2) := callAll rest w1 in
      (p :: ps, w2)
  end.

Inductive Event : Type :=
| Call (now : float)
| Settle (request : nat) (outcome : Completion JsVal) (now : float).

(** The steps of the cache: a call at any time, and the settling of a request
    that is in flight. *)
Inductive step : World -> Event -> World -> Prop :=
| step_call (now : float) (w : World) :
    step w (Call now) (snd (getCachedPriceData now w))
| step_settle (request : nat) (outcome : Completion JsVal) (now : float)
    (w : World) :
    In request (inFlight w) ->
    step w (Settle request outcome now) (settle request outcome now w).

Inductive reachable : World -> Prop :=
| reachable_initial : reachable initial
| reachable_step (w w' : World) (e : Event) :
    reachable w -> step w e w' -> reachable w'.

End Cache.

End Server.

(** ** The upstream fetcher *)

Module Upstream.

Import Js.

Section Fetch.

Variable NumberToString : float -> string.

(** [JSON.parse] on the text of a body: the value it denotes, [None] when it
    throws a [SyntaxError]. *)
Variable JSON_parse : string -> option JsVal.

(** [normalizeJSON(value)]. *)
Definition normalizeJSON (value : JsVal) : JsVal :=
  match value with
  | JStr text =>
      match JSON_parse text with
      | Some parsed => parsed
      | None => value
      end
  | _ => value
  end.

(** How [axios.get] ends: with a response object, or by throwing [err]. *)
Inductive AxiosOutcome : Type :=
| Responded (res : JsVal)
| Failed (err : JsVal).

(** [err.response?.status ?? err.code ?? "request_failed"]. *)
Definition failureStatus (err : JsVal) : Completion JsVal :=
  response <- member err "response" ;;
  if isNullish (response ?. "status")
  then code <- member err "code" ;; Normal (code ?? JStr "request_failed")
  else Normal (response ?. "status").

(** [getJSON(url, config)] for the configs the server passes (none, or an
    object), from the way its [axios.get] ends: the promise resolves to the
    normalized body, or rejects with
    [new Error(`${url} -> HTTP ${status}`)]. *)
Definition getJSON (url : string) (outcome : AxiosOutcome)
  : Completion JsVal :=
  match outcome with
  | Responded res => Normal (normalizeJSON (getOwn res "data"))
  | Failed err =>
      status <- failureStatus err ;;
      text <- ToString NumberToString status ;;
      Throw (Error (url ++ " -> HTTP " ++ text)%string)
  end.

End Fetch.

Definition INFO_URL : string :=
  "https://mainnet.zcashexplorer.app/api/v1/blockchain-info".

Definition MEMPOOL_URL : string := "https://zcashmetro.io:3000/mempool".

End Upstream.

(** ** The dashboard client *)

Module Client.

Import Js.

Local Open Scope float_scope.

(** [Number.isFinite(v)]: no conversion, false on whatever is not a
    number. *)
Definition Number_isFinite (v : JsVal) : bool :=
  match v with
  | JNum x => PrimFloat.is_finite x
  | _ => false
  end.

(** The own properties of an array, named by their indices from [i] on. *)
Fixpoint indexed (i : nat) (elems : list JsVal) : list (string * JsVal) :=
  match elems with
  | [] => []
  | e :: rest =>
      (NilEmpty.string_of_uint (Nat.to_uint i), e) :: indexed (S i) rest
  end.

(** What [{ ...v }] copies: the own properties of an object, the elements of
    an array and the characters of a string under their indices, nothing
    for the other values. *)
Definition spread (v : JsVal) : list (string * JsVal) :=
  match v with
  | JObj props => props
  | JArr elems => indexed 0 elems
  | JStr s =>
      indexed 0 (map (fun c => JStr (String c "")) (list_ascii_of_string s))
  | _ => []
  end.

(** A property written in an object literal after a spread: it replaces the
    value of a property of that name, and is added when there is none. *)
Fixpoint setProp (k : string) (v : JsVal) (props : list (string * JsVal))
  : list (string * JsVal) :=
  match props with
  | [] => [(k, v)]
  | (k', v') :: rest =>
      if String.eqb k' k then (k, v) :: rest
      else (k', v') :: setProp k v rest
  end.

(** The update that the mempool interval of [useStatus] hands to [setData],
    [j] being the body of the response and [now] the [Date.now()] of the
    update. *)
Definition refreshStatus (j : JsVal) (now : float) (prev : JsVal) : JsVal :=
  if negb (ToBoolean prev) then prev
  else
    JObj
      (setProp "timestamp" (j ?. "timestamp" ?? JNum now)
         (setProp "height"
            (if Number_isFinite (j ?. "height")
             then getOwn j "height"
             else getOwn prev "height")
            (setProp "mempoolSize"
               (if Number_isFinite (j ?. "mempoolSize")
                then getOwn j "mempoolSize"
                else getOwn prev "mempoolSize")
               (spread prev)))).

Section Cards.

Variable StringToNumber : string -> float.
Variable NumberToString : float -> string.

(** [new Intl.NumberFormat(undefined, opts).format(x)], [currency] telling
    whether [opts] asks for [style: "currency", currency: "USD"], with the
    [maximumFractionDigits] of [opts]. *)
Variable NumberFormat : bool -> nat -> float -> string.

(** [a * b] on values that are no BigInt. *)
Definition multiply (a b : JsVal) : Completion float :=
  x <- ToNumber StringToNumber NumberToString a ;;
  y <- ToNumber StringToNumber NumberToString b ;;
  Normal (x * y).

(** [fmtUsd(x)]. *)
Definition fmtUsd (x : JsVal) : string :=
  match x with
  | JNum n =>
      if PrimFloat.is_finite n
      then if 1000000 <=? PrimFloat.abs n
           then NumberFormat true 0 n
           else NumberFormat true 2 n
      else "--"
  | _ => "--"
  end.

(** [treasury] in [LockboxCard]: [lockbox * data?.priceUsd], with
    [lockbox = (data?.valuePools ?? {})?.lockbox]. *)
Definition treasury (data : JsVal) : Completion float :=
  let vp := data ?. "valuePools" ?? JObj [] in
  let lockbox := vp ?. "lockbox" in
  multiply lockbox (data ?. "priceUsd").

End Cards.

End Client.

(** ** Payloads and states of the examples *)

Import Js Server.

Local Open Scope float_scope.

(** The closed examples fix the two builtin conversions. Their payloads hold
    a number wherever the server reads one, so that no example ever applies
    a conversion: the stand-ins below have no bearing on them. *)
Definition exampleStringToNumber (s : string) : float := nan.
Definition exampleNumberToString (x : float) : string := "NaN".

(** [{ id, chainValue }]. *)
Definition poolRecord (id : string) (chainValue : JsVal) : JsVal :=
  JObj [("id", JStr id); ("chainValue", chainValue)].

Definition infoOfPools (blocks : JsVal) (pools : list JsVal) : JsVal :=
  JObj [("blocks", blocks); ("valuePools", JArr pools)].

(** The payload of the spec's inference example. *)
Definition inferenceInfo : JsVal :=
  infoOfPools (JNum 2500000)
    [poolRecord "transparent" (JNum 0); poolRecord "sprout" (JNum 1);
     poolRecord "sapling" (JNum 2); poolRecord "orchard" (JNum 3);
     poolRecord "lockbox" (JNum 4)].

(** The payload of the spec's non-inference example. *)
Definition plainInfo : JsVal :=
  infoOfPools (JNum 2500000)
    [poolRecord "transparent" (JNum 100); poolRecord "sprout" (JNum 1);
     poolRecord "sapling" (JNum 2); poolRecord "orchard" (JNum 3);
     poolRecord "lockbox" (JNum 4)].

(** A transparent pool reported negative, and nothing else. *)
Definition negativeInfo : JsVal :=
  infoOfPools (JNum 2500000) [poolRecord "transparent" (JNum (-5))].

(** A pool whose [chainValue] is the boolean [true]. *)
Definition booleanInfo : JsVal :=
  infoOfPools (JNum 2500000) [poolRecord "sprout" (JBool true)].

(** A [null] among the pool records. *)
Definition nullRecordInfo : JsVal :=
  infoOfPools (JNum 2500000) [JNull; poolRecord "sprout" (JNum 1)].

(** The height sent as a string. *)
Definition stringHeightInfo : JsVal :=
  infoOfPools (JStr "2500000") [poolRecord "sprout" (JNum 1)].

(** A price payload in the shape of the markets endpoint. *)
Definition marketsPrice : JsVal :=
  JArr [JObj [("current_price", JNum 40.5);
              ("price_change_percentage_24h", JNum (-1.25));
              ("market_cap", JNum 650000000);
              ("market_cap_change_percentage_24h", JNum 0.5);
              ("market_cap_change_24h", JNum 3000000);
              ("circulating_supply", JNum 16000000)]].

(** An empty mempool. *)
Definition emptyMempool : JsVal := JArr [].

(** The error of a failed request. *)
Definition upstreamError : Exn :=
  Error ("https://api.coingecko.com/api/v3/coins/markets"
         ++ "?vs_currency=usd&ids=zcash&price_change_percentage=24h"
         ++ " -> HTTP 429")%string.

(** The cache after a first call at [now = 1000] whose request succeeds at
    [1001] with an empty body, which [getJSON] hands over as the empty
    string. *)
Definition afterEmptyBody : World :=
  settle 0 (Normal (JStr "")) 1001
    (snd (getCachedPriceData 60000 1000 initial)).

(** The cache after a first call at [now = 1000] whose request succeeds at
    [1001] with [marketsPrice]. *)
Definition afterMarkets : World :=
  settle 0 (Normal marketsPrice) 1001
    (snd (getCachedPriceData 60000 1000 initial)).

(** The pools the reconciler returns on the examples. *)
Definition inferencePools : ValuePools :=
  {| transparent := 10; sprout := 1; sapling := 2; orchard := 3;
     lockbox := 4; shielded := 6; totalChain := 20 |}.

Definition plainPools : ValuePools :=
  {| transparent := 100; sprout := 1; sapling := 2; orchard := 3;
     lockbox := 4; shielded := 6; totalChain := 110 |}.

Definition negativePools : ValuePools :=
  {| transparent := -5; sprout := 0; sapling := 0; orchard := 0;
     lockbox := 0; shielded := 0; totalChain := -5 |}.

(** The [Date.now()] of the example responses. *)
Definition exampleNow : float := 1700000000000.

(** The snapshot sent for [marketsPrice], [plainInfo] and a failed mempool
    request. *)
Definition plainSnapshot : StatusSnapshot :=
  {| timestamp := exampleNow;
     priceUsd := Some 40.5;
     priceChange24h := Some (-1.25);
     marketCapUsd := Some 650000000;
     marketCapChange24h := Some 0.5;
     marketCapChangeUsd := Some 3000000;
     circulatingSupply := Some 16000000;
     height := JNum 2500000;
     mempoolSize := JNum 0;
     valuePools :=
       {| transparent := 100; sprout := 1; sapling := 2; orchard := 3;
          lockbox := 4; shielded := 6; totalChain := 16000000 |} |}.

(** The snapshot sent for [marketsPrice], [stringHeightInfo] and an empty
    mempool. *)
Definition stringHeightSnapshot : StatusSnapshot :=
  {| timestamp := exampleNow;
     priceUsd := Some 40.5;
     priceChange24h := Some (-1.25);
     marketCapUsd := Some 650000000;
     marketCapChange24h := Some 0.5;
     marketCapChangeUsd := Some 3000000;
     circulatingSupply := Some 16000000;
     height := JStr "2500000";
     mempoolSize := JNum 0;
     valuePools :=
       {| transparent := 15999999; sprout := 1; sapling := 0; orchard := 0;
          lockbox := 0; shielded := 1; totalChain := 16000000 |} |}.

(** ** What the claims say of a payload *)

Definition isPrimitive (v : JsVal) : bool :=
  match v with
  | JArr _ | JObj _ => false
  | _ => true
  end.

(** A pool record on which neither [p.id] nor [Number(p.chainValue)] can
    throw: it is not [null], and its [chainValue], if any, is a primitive. *)
Definition wellFormedRecord (p : JsVal) : bool :=
  negb (isNullish p) && isPrimitive (p ?. "chainValue").

(** ** What the claims say of a snapshot *)

(** A value that is [null] or a finite number, for a field that is typed
    [null] or number. *)
Definition finiteOrNull (field : option float) : bool :=
  match field with
  | None => true
  | Some x => PrimFloat.is_finite x
  end.

(** The same for a field that holds any value. *)
Definition finiteNumberOrNull (field : JsVal) : bool :=
  match field with
  | JNull => true
  | JNum x => PrimFloat.is_finite x
  | _ => false
  end.

(** Every field of [valuePools] is a finite number. *)
Definition poolsFinite (vp : ValuePools) : bool :=
  PrimFloat.is_finite (transparent vp) && PrimFloat.is_finite (sprout vp)
  && PrimFloat.is_finite (sapling vp) && PrimFloat.is_finite (orchard vp)
  && PrimFloat.is_finite (lockbox vp) && PrimFloat.is_finite (shielded vp)
  && PrimFloat.is_finite (totalChain vp).

(** Every numeric field of a snapshot is a finite number or [null]. *)
Definition allFieldsFiniteOrNull (s : StatusSnapshot) : bool :=
  finiteOrNull (priceUsd s) && finiteOrNull (priceChange24h s)
  && finiteOrNull (marketCapUsd s) && finiteOrNull (marketCapChange24h s)
  && finiteOrNull (marketCapChangeUsd s) && finiteOrNull (circulatingSupply s)
  && finiteNumberOrNull (height s) && finiteNumberOrNull (mempoolSize s)
  && poolsFinite (valuePools s).

(** ** What the claims say of the cache *)

(** The requests in flight are the one [priceCache.promise] stands for, if
    any. *)
Definition coherent (w : World) : Prop :=
  inFlight w = match promise (priceCache w) with
               | Some pending => [pending]
               | None => []
               end.

(** What the promise of a request settles to when the request settles with
    [outcome] and the cache is [c]: the result of the [then] and [catch]
    callbacks. *)
Definition settledAs (outcome : Completion JsVal) (c : PriceCache)
  : Completion JsVal :=
  match outcome with
  | Normal freshData => Normal freshData
  | Throw err => if ToBoolean (data c) then Normal (data c) else Throw err
  end.

(** ** Further payload shapes and runs *)

(** The fields that the handler reads from a price entry. *)
Definition priceFields : list string :=
  ["current_price"; "usd"; "price_change_percentage_24h"; "usd_24h_change";
   "market_cap"; "usd_market_cap"; "market_cap_change_percentage_24h";
   "market_cap_change_24h"; "circulating_supply"].

(** A price entry on which [sanitizeNumber] cannot throw: each field the
    handler reads is absent or a primitive. *)
Definition plainEntry (priceEntry : JsVal) : bool :=
  forallb (fun k => isPrimitive (priceEntry ?. k)) priceFields.

(** A price payload in the shape of the simple price endpoint. *)
Definition simplePrice (usd change cap : float) : JsVal :=
  JObj [("zcash", JObj [("usd", JNum usd); ("usd_24h_change", JNum change);
                        ("usd_market_cap", JNum cap)])].

(** The events that led the cache from its initial state to a state, the
    latest first. *)
Inductive history (TTL : float) : list Event -> World -> Prop :=
| history_initial : history TTL [] initial
| history_step (past : list Event) (w w' : World) (e : Event) :
    history TTL past w -> step TTL w e w' -> history TTL (e :: past) w'.

(** The requests that have settled, each at most once, and the requests in
    flight make up the requests made. *)
Definition accounted (w : World) : Prop :=
  (length (settled w) + length (inFlight w) = requests w)%nat
  /\ NoDup (map fst (settled w) ++ inFlight w)
  /\ (forall r, In r (map fst (settled w) ++ inFlight w) ->
                (r < requests w)%nat).

(** The stored value and its timestamp are those of the initial cache, or
    those of one successful request of the past. *)
Definition stamped (past : list Event) (c : PriceCache) : Prop :=
  (data c = JNull /\ fetchedAt c = 0)
  \/ exists request,
       In (Settle request (Normal (data c)) (fetchedAt c)) past.

(** A status held by the client, as the server sends it. *)
Definition clientStatus (price lockboxValue : JsVal) : JsVal :=
  JObj [("timestamp", JNum 1700000000000); ("priceUsd", price);
        ("height", JNum 2500000); ("mempoolSize", JNum 12);
        ("valuePools", JObj [("lockbox", lockboxValue)])].

(** [Number::toString] on the integers below 10^21, which print as plain
    decimals; the examples convert no other number to a string. *)
Definition exampleIntegerToString (x : float) : string :=
  match Prim2SF x with
  | S754_zero _ => "0"
  | S754_finite negative m e =>
      let magnitude :=
        if (0 <=? e)%Z then Some (Z.pos m * 2 ^ e)%Z
        else if (Z.pos m mod 2 ^ (- e) =? 0)%Z
             then Some (Z.pos m / 2 ^ (- e))%Z
             else None in
      match magnitude with
      | Some n => NilZero.string_of_int (Z.to_int (if negative then - n else n))
      | None => "NaN"
      end
  | _ => "NaN"
  end.

(** The bodies of the examples that are strings are no JSON text. *)
Definition exampleParse (text : string) : option JsVal := None.

(** A formatter for the examples, which format a zero amount. *)
Definition exampleNumberFormat (currency : bool) (digits : nat) (x : float)
  : string :=
  if currency then "$0.00" else "0".

(** The pools returned for [plainInfo] and a circulating supply of 20. *)
Definition overriddenPools : ValuePools :=
  {| transparent := 100; sprout := 1; sapling := 2; orchard := 3;
     lockbox := 4; shielded := 6; totalChain := 20 |}.

(** Pool records with a second transparent record and a [null] after the
    first. *)
Definition repeatedRecords : list JsVal :=
  [poolRecord "sprout" (JNum 1); poolRecord "transparent" (JNum 7);
   JNull; poolRecord "transparent" (JNum 9)].

(** A response whose body is text. *)
Definition textResponse : JsVal :=
  JObj [("status", JNum 200); ("data", JStr "Service Unavailable")].

(** The errors of a request refused with status 429, of a request that
    timed out, and of a request that failed with nothing to tell. *)
Definition refusedError : JsVal :=
  JObj [("code", JStr "ERR_BAD_REQUEST");
        ("response", JObj [("status", JNum 429)])].

Definition timeoutError : JsVal := JObj [("code", JStr "ECONNABORTED")].

Definition bareError : JsVal := JObj [].

(** A response to the mempool refresh whose height is a string. *)
Definition refreshResponse : JsVal :=
  JObj [("timestamp", JNum 1700000010000); ("priceUsd", JNum 41);
        ("height", JStr "2500001"); ("mempoolSize", JNum 15)].

(** An info payload whose height is 0, with an estimate beside it. *)
Definition genesisInfo : JsVal :=
  JObj [("blocks", JNum 0); ("estimatedheight", JNum 2500000)].

(** An info payload that nests its height. *)
Definition nestedInfo : JsVal :=
  JObj [("blocks", JNull); ("blockchain", JObj [("blocks", JNum 2500000)])].

(** ** Properties of the reconciler *)

Section ReconcilerProperties.

Variable StringToNumber : string -> float.
Variable NumberToString : float -> string.

Abbreviation Number := (ToNumber StringToNumber NumberToString).
Abbreviation sanitize := (sanitizeNumber StringToNumber NumberToString).
Abbreviation findPool := (find StringToNumber NumberToString).
Abbreviation reconcile := (extractValuePools StringToNumber NumberToString).

Lemma bind_normal {A B : Type} (c : Completion A) (k : A -> Completion B)
  (b : B) :
  bind c k = Normal b -> exists a, c = Normal a /\ k a = Normal b.
Proof.
  destruct c as [a | e]; simpl; intros H.
  - exists a. split; [reflexivity | exact H].
  - discriminate H.
Qed.

Lemma sanitizeNumber_number (x : float) :
  sanitize (JNum x)
  = Normal (if PrimFloat.is_finite x then Some x else None).
Proof. reflexivity. Qed.

Lemma sanitizeNumber_finite (value : JsVal) (num : float) :
  sanitize value = Normal (Some num) -> PrimFloat.is_finite num = true.
Proof.
  unfold sanitizeNumber.
  destruct (isNullish value); [discriminate |].
  intros H. apply bind_normal in H. destruct H as [n [_ H]].
  destruct (PrimFloat.is_finite n) eqn:Hfin; inversion H; subst; exact Hfin.
Qed.

(** What [extractValuePools] returns, from the five values that [find]
    extracts. *)
Lemma extractValuePools_returned (info supply : JsVal)
  (vp : ValuePools) :
  reconcile info supply = Normal vp ->
  exists t0,
    findPool (poolRecords info) "transparent" = Normal t0
    /\ findPool (poolRecords info) "sprout" = Normal (sprout vp)
    /\ findPool (poolRecords info) "sapling" = Normal (sapling vp)
    /\ findPool (poolRecords info) "orchard" = Normal (orchard vp)
    /\ findPool (poolRecords info) "lockbox" = Normal (lockbox vp)
    /\ shielded vp = sprout vp + sapling vp + orchard vp
    /\ totalChain vp
       = chooseTotal supply (t0 + shielded vp + lockbox vp)
    /\ transparent vp
       = match sanitize (JNum (inferTransparent t0 (shielded vp)
                                 (lockbox vp) (totalChain vp))) with
         | Normal (Some t) => t
         | _ => 0
         end.
Proof.
  unfold extractValuePools. intros H.
  apply bind_normal in H. destruct H as [t0 [Ht H]].
  apply bind_normal in H. destruct H as [sp [Hsp H]].
  apply bind_normal in H. destruct H as [sa [Hsa H]].
  apply bind_normal in H. destruct H as [o [Ho H]].
  apply bind_normal in H. destruct H as [l [Hl H]].
  apply bind_normal in H. destruct H as [s [Hs H]].
  inversion H; subst vp; clear H.
  cbn [transparent sprout sapling orchard lockbox shielded totalChain].
  exists t0. rewrite Hs. repeat split; assumption.
Qed.

(** The other direction: [extractValuePools] returns as soon as the five
    searches do. *)
Lemma extractValuePools_returns (info supply : JsVal)
  (t0 sp sa o l : float) :
  findPool (poolRecords info) "transparent" = Normal t0 ->
  findPool (poolRecords info) "sprout" = Normal sp ->
  findPool (poolRecords info) "sapling" = Normal sa ->
  findPool (poolRecords info) "orchard" = Normal o ->
  findPool (poolRecords info) "lockbox" = Normal l ->
  exists vp, reconcile info supply = Normal vp.
Proof.
  intros Ht Hsp Hsa Ho Hl. unfold extractValuePools.
  rewrite Ht, Hsp, Hsa, Ho, Hl. cbn [bind].
  rewrite sanitizeNumber_number. cbn [bind]. eexists. reflexivity.
Qed.

Lemma Array_find_hasId (id : string) (vp : list JsVal) (p : JsVal) :
  Array_find (hasId id) vp = Normal p ->
  p = JUndefined \/ (In p vp /\ getOwn p "id" = JStr id).
Proof.
  induction vp as [| q rest IH]; simpl; intros H.
  - left. inversion H. reflexivity.
  - apply bind_normal in H. destruct H as [b [Hq H]].
    destruct b.
    + inversion H; subst q; clear H. right. split; [left; reflexivity |].
      unfold hasId, member in Hq.
      destruct (isNullish p); [discriminate |].
      cbn [bind] in Hq. injection Hq as Heq.
      destruct (getOwn p "id") as [| | | | s | |];
        cbn [strictEqString] in Heq; try discriminate Heq.
      apply String.eqb_eq in Heq. rewrite Heq. reflexivity.
    + destruct (IH H) as [Hu | [Hin Hid]]; [left; exact Hu |].
      right. split; [right; exact Hin | exact Hid].
Qed.

Lemma Array_find_returns (id : string) (vp : list JsVal) :
  forallb (fun p => negb (isNullish p)) vp = true ->
  exists p, Array_find (hasId id) vp = Normal p.
Proof.
  induction vp as [| q rest IH]; simpl; intros H.
  - exists JUndefined. reflexivity.
  - apply andb_true_iff in H. destruct H as [Hq Hrest].
    unfold hasId at 1, member. apply negb_true_iff in Hq. rewrite Hq.
    cbn [bind].
    destruct (strictEqString (getOwn q "id") id).
    + exists q. reflexivity.
    + exact (IH Hrest).
Qed.

Lemma ToNumber_primitive (v : JsVal) :
  isPrimitive v = true -> exists n, Number v = Normal n.
Proof.
  destruct v; simpl; intros H; try discriminate H; eexists; reflexivity.
Qed.

(** The search returns on well-formed records. *)
Lemma find_returns (vp : list JsVal) (id : string) :
  forallb wellFormedRecord vp = true -> exists n, findPool vp id = Normal n.
Proof.
  intros Hwf. unfold find.
  destruct (Array_find_returns id vp) as [p Hp].
  { rewrite forallb_forall in *. intros q Hq.
    specialize (Hwf q Hq). unfold wellFormedRecord in Hwf.
    apply andb_true_iff in Hwf. exact (proj1 Hwf). }
  rewrite Hp. cbn [bind]. apply ToNumber_primitive.
  destruct (Array_find_hasId id vp p Hp) as [Hu | [Hin _]].
  - subst p. reflexivity.
  - rewrite forallb_forall in Hwf. specialize (Hwf p Hin).
    unfold wellFormedRecord in Hwf. apply andb_true_iff in Hwf.
    destruct Hwf as [_ Hprim]. unfold coalesce.
    destruct (isNullish (p ?. "chainValue")); [reflexivity | exact Hprim].
Qed.

(** The reconciler returns on every payload whose pool records are
    well-formed, whatever the [circulatingSupply]. *)
Lemma extractValuePools_total (info supply : JsVal) :
  forallb wellFormedRecord (poolRecords info) = true ->
  exists vp, reconcile info supply = Normal vp.
Proof.
  intros Hwf.
  destruct (find_returns (poolRecords info) "transparent" Hwf) as [t0 Ht].
  destruct (find_returns (poolRecords info) "sprout" Hwf) as [sp Hsp].
  destruct (find_returns (poolRecords info) "sapling" Hwf) as [sa Hsa].
  destruct (find_returns (poolRecords info) "orchard" Hwf) as [o Ho].
  destruct (find_returns (poolRecords info) "lockbox" Hwf) as [l Hl].
  exact (extractValuePools_returns info supply t0 sp sa o l Ht Hsp Hsa Ho Hl).
Qed.

(** C3 (as amended). When the search raises no exception, [find] yields
    [Number(chainValue ?? 0)] of the record it finds, a record of the list
    whose [id] is the one asked for: the [chainValue] itself when it is a
    number, the number a string denotes when it is a string, 1 or 0 when it
    is a boolean, and 0 when no record matches or the [chainValue] is absent
    or [null]. *)
Theorem find_converts_chainValue (vp : list JsVal) (id : string) (n : float) :
  findPool vp id = Normal n ->
  exists p,
    Array_find (hasId id) vp = Normal p
    /\ (p = JUndefined \/ (In p vp /\ getOwn p "id" = JStr id))
    /\ Number (p ?. "chainValue" ?? JNum 0) = Normal n
    /\ (isNullish (p ?. "chainValue") = true -> n = 0)
    /\ (forall x, p ?. "chainValue" = JNum x -> n = x)
    /\ (forall s, p ?. "chainValue" = JStr s -> n = StringToNumber s)
    /\ (forall b, p ?. "chainValue" = JBool b -> n = if b then 1 else 0).
Proof.
  unfold find. intros H.
  apply bind_normal in H. destruct H as [p [Hp Hn]].
  exists p. split; [exact Hp |].
  split; [exact (Array_find_hasId id vp p Hp) |].
  split; [exact Hn |].
  unfold coalesce in Hn.
  repeat split.
  - intros Hnull. rewrite Hnull in Hn. inversion Hn. reflexivity.
  - intros x Hx. rewrite Hx in Hn. inversion Hn. reflexivity.
  - intros s Hs. rewrite Hs in Hn. inversion Hn. reflexivity.
  - intros b Hb. rewrite Hb in Hn. inversion Hn. reflexivity.
Qed.

(** C2 (as amended). When the extracted transparent value is zero, missing
    or negative and [totalChain] is finite, the reconciler computes
    [totalChain - shielded - lockbox] and returns it as [transparent] if it
    is finite and greater than 0; otherwise it returns the extracted value
    itself when that is finite (0 when it was zero or missing, the negative
    number when it was negative) and 0 when it is not. On the inference
    example the result is [transparent = 10], [shielded = 6],
    [totalChain = 20]. *)
Theorem transparent_inference (info supply : JsVal)
  (t0 : float) (vp : ValuePools) :
  findPool (poolRecords info) "transparent" = Normal t0 ->
  reconcile info supply = Normal vp ->
  (t0 <=? 0) = true ->
  PrimFloat.is_finite (totalChain vp) = true ->
  (let inferred := totalChain vp - shielded vp - lockbox vp in
   transparent vp
   = if PrimFloat.is_finite inferred && (0 <? inferred)
     then inferred
     else if PrimFloat.is_finite t0 then t0 else 0)
  /\ reconcile inferenceInfo (JNum 20)
     = Normal {| transparent := 10; sprout := 1; sapling := 2; orchard := 3;
                 lockbox := 4; shielded := 6; totalChain := 20 |}.
Proof.
  intros Ht Hvp Hle Hfin. split; [| reflexivity].
  destruct (extractValuePools_returned info supply vp Hvp)
    as [t1 [Ht1 [_ [_ [_ [_ [_ [_ Htr]]]]]]]].
  rewrite Ht in Ht1. inversion Ht1; subst t1; clear Ht1.
  rewrite Htr, sanitizeNumber_number. unfold inferTransparent.
  rewrite Hle, Hfin, orb_true_r. cbn [andb].
  cbv zeta.
  destruct (PrimFloat.is_finite (totalChain vp - shielded vp - lockbox vp)
            && (0 <? totalChain vp - shielded vp - lockbox vp)) eqn:Hacc.
  - apply andb_true_iff in Hacc. destruct Hacc as [Hf _]. rewrite Hf.
    reflexivity.
  - destruct (PrimFloat.is_finite t0); reflexivity.
Qed.

(** C7. The returned [totalChain] is [circulatingSupply] when that is a
    finite number greater than 0, and otherwise the sum
    [transparent + shielded + lockbox] of the extracted values. On the
    non-inference example the result keeps [transparent = 100] and has
    [totalChain = 110]. *)
Theorem totalChain_is_supply_or_sum (info supply : JsVal)
  (vp : ValuePools) :
  reconcile info supply = Normal vp ->
  (exists t0,
     findPool (poolRecords info) "transparent" = Normal t0
     /\ (forall c, supply = JNum c -> PrimFloat.is_finite c = true ->
                    (0 <? c) = true -> totalChain vp = c)
     /\ ((forall c, supply = JNum c ->
                     PrimFloat.is_finite c = false \/ (0 <? c) = false) ->
         totalChain vp
         = t0 + (sprout vp + sapling vp + orchard vp) + lockbox vp))
  /\ reconcile plainInfo JNull
     = Normal {| transparent := 100; sprout := 1; sapling := 2; orchard := 3;
                 lockbox := 4; shielded := 6; totalChain := 110 |}.
Proof.
  intros Hvp. split; [| reflexivity].
  destruct (extractValuePools_returned info supply vp Hvp)
    as [t0 [Ht [_ [_ [_ [_ [Hsh [Htot _]]]]]]]].
  exists t0. split; [exact Ht |]. rewrite Htot, Hsh. split.
  - intros c Hc Hfin Hpos. subst supply. simpl. rewrite Hfin, Hpos.
    reflexivity.
  - intros Hbad. destruct supply as [| | b | c | s | l | props];
      try reflexivity.
    simpl. destruct (Hbad c eq_refl) as [Hc | Hc]; rewrite Hc;
      [| rewrite andb_false_r]; reflexivity.
Qed.

(** C9. The returned [shielded] is the sum of the returned [sprout],
    [sapling] and [orchard]. *)
Theorem shielded_is_sum (info supply : JsVal)
  (vp : ValuePools) :
  reconcile info supply = Normal vp ->
  shielded vp = sprout vp + sapling vp + orchard vp.
Proof.
  intros Hvp.
  destruct (extractValuePools_returned info supply vp Hvp)
    as [t0 [_ [_ [_ [_ [_ [Hsh _]]]]]]].
  exact Hsh.
Qed.

(** C10. The returned [sprout], [sapling], [orchard] and [lockbox] are the
    values extracted from the pool records, [shielded] and [totalChain] are
    computed from the extracted values, and the four fields and [shielded]
    are the same whatever the [circulatingSupply]: only [transparent] is
    touched by the inference and the sanitization. *)
Theorem other_pools_are_extracted (info supply : JsVal)
  (vp : ValuePools) :
  reconcile info supply = Normal vp ->
  findPool (poolRecords info) "sprout" = Normal (sprout vp)
  /\ findPool (poolRecords info) "sapling" = Normal (sapling vp)
  /\ findPool (poolRecords info) "orchard" = Normal (orchard vp)
  /\ findPool (poolRecords info) "lockbox" = Normal (lockbox vp)
  /\ (exists t0,
        findPool (poolRecords info) "transparent" = Normal t0
        /\ shielded vp = sprout vp + sapling vp + orchard vp
        /\ totalChain vp
           = chooseTotal supply (t0 + shielded vp + lockbox vp))
  /\ (forall supply' vp',
        reconcile info supply' = Normal vp' ->
        sprout vp' = sprout vp /\ sapling vp' = sapling vp
        /\ orchard vp' = orchard vp /\ lockbox vp' = lockbox vp
        /\ shielded vp' = shielded vp).
Proof.
  intros Hvp.
  destruct (extractValuePools_returned info supply vp Hvp)
    as [t0 [Ht [Hsp [Hsa [Ho [Hl [Hsh [Htot _]]]]]]]].
  repeat (split; [assumption |]).
  split; [exists t0; repeat split; assumption |].
  intros supply' vp' Hvp'.
  destruct (extractValuePools_returned info supply' vp' Hvp')
    as [t1 [_ [Hsp' [Hsa' [Ho' [Hl' [Hsh' _]]]]]]].
  rewrite Hsp in Hsp'. rewrite Hsa in Hsa'. rewrite Ho in Ho'.
  rewrite Hl in Hl'.
  inversion Hsp' as [E1]. inversion Hsa' as [E2]. inversion Ho' as [E3].
  inversion Hl' as [E4].
  rewrite Hsh', Hsh, <- E1, <- E2, <- E3. repeat split; reflexivity.
Qed.

End ReconcilerProperties.

(** ** Properties of the price cache *)

Section CacheProperties.

Variable TTL : float.

Abbreviation call := (getCachedPriceData TTL).
Abbreviation calls := (callAll TTL).
Abbreviation stale w := (fun now => fresh TTL now (priceCache w) = false).

(** A call leaves [data] and [fetchedAt] as they are. *)
Lemma call_keeps_value (now : float) (w : World) :
  data (priceCache (snd (call now w))) = data (priceCache w)
  /\ fetchedAt (priceCache (snd (call now w))) = fetchedAt (priceCache w).
Proof.
  unfold getCachedPriceData.
  destruct (fresh TTL now (priceCache w)); [split; reflexivity |].
  destruct (promise (priceCache w)); split; reflexivity.
Qed.

Lemma calls_keep_value (times : list float) (w : World) :
  data (priceCache (snd (calls times w))) = data (priceCache w)
  /\ fetchedAt (priceCache (snd (calls times w))) = fetchedAt (priceCache w).
Proof.
  revert w. induction times as [| now rest IH]; intros w; simpl.
  - split; reflexivity.
  - destruct (call now w) as [p w1] eqn:Hcall.
    destruct (calls rest w1) as [ps w2] eqn:Hrest. simpl.
    pose proof (IH w1) as IH1. rewrite Hrest in IH1. simpl in IH1.
    pose proof (call_keeps_value now w) as Hk. rewrite Hcall in Hk.
    simpl in Hk. destruct IH1 as [Hd Hf]. destruct Hk as [Hd' Hf'].
    split; congruence.
Qed.

(** While a request is pending, a call on a stale entry returns the pending
    promise and changes nothing. *)
Lemma call_attaches (now : float) (w : World) (pending : nat) :
  promise (priceCache w) = Some pending ->
  fresh TTL now (priceCache w) = false ->
  call now w = (FetchPromise pending, w).
Proof.
  intros Hp Hs. unfold getCachedPriceData. rewrite Hs, Hp. reflexivity.
Qed.

Lemma calls_attach (times : list float) (w : World) (pending : nat) :
  promise (priceCache w) = Some pending ->
  Forall (stale w) times ->
  calls times w = (map (fun _ => FetchPromise pending) times, w).
Proof.
  intros Hp Hs. induction Hs as [| now rest Hnow _ IH]; simpl.
  - reflexivity.
  - rewrite (call_attaches now w pending Hp Hnow), IH. reflexivity.
Qed.

(** With no request pending, a call on a stale entry starts one. *)
Lemma call_starts (now : float) (w : World) :
  promise (priceCache w) = None ->
  fresh TTL now (priceCache w) = false ->
  call now w
  = (FetchPromise (requests w),
     {| priceCache := {| data := data (priceCache w);
                         fetchedAt := fetchedAt (priceCache w);
                         promise := Some (requests w) |};
        requests := S (requests w);
        inFlight := requests w :: inFlight w;
        settled := settled w |}).
Proof.
  intros Hp Hs. unfold getCachedPriceData. rewrite Hs, Hp. reflexivity.
Qed.

Lemma step_coherent (w w' : World) (e : Event) :
  coherent w -> step TTL w e w' -> coherent w'.
Proof.
  unfold coherent. intros Hc Hstep.
  destruct Hstep as [now w | request outcome now w Hin].
  - unfold getCachedPriceData.
    destruct (fresh TTL now (priceCache w)); [exact Hc |].
    destruct (promise (priceCache w)) as [pending |] eqn:Hp; cbn [snd].
    + rewrite Hp. exact Hc.
    + cbn [inFlight priceCache promise]. rewrite Hc. reflexivity.
  - destruct (promise (priceCache w)) as [pending |]; rewrite Hc in Hin;
      [| contradiction].
    destruct Hin as [Heq | []]. subst pending.
    unfold settle. cbn [inFlight priceCache promise]. rewrite Hc.
    simpl. rewrite Nat.eqb_refl. reflexivity.
Qed.

Lemma reachable_coherent (w : World) : reachable TTL w -> coherent w.
Proof.
  induction 1 as [| w w' e _ IH Hstep].
  - reflexivity.
  - exact (step_coherent w w' e IH Hstep).
Qed.

Lemma settlement_head (request : nat) (outcome : Completion JsVal)
  (l : list (nat * Completion JsVal)) :
  settlement request ((request, outcome) :: l) = Some outcome.
Proof. simpl. rewrite Nat.eqb_refl. reflexivity. Qed.

Lemma received_settle (request : nat) (outcome : Completion JsVal)
  (now : float) (w : World) :
  received (settle request outcome now w) (FetchPromise request)
  = Some (settledAs outcome (priceCache w)).
Proof.
  unfold received, settle. cbn [settled]. rewrite settlement_head.
  destruct outcome; reflexivity.
Qed.

(** C4. Two callers or more that call while the entry is stale, before any
    request settles, all get the promise of one and the same request, the
    only one in flight: one request is started if none was pending and none
    otherwise, and whatever that request settles to, every caller receives
    the same result, the fetched value when the request succeeds. In every
    reachable state at most one request is in flight. *)
Theorem single_flight (w : World) (times : list float) :
  reachable TTL w ->
  (2 <= length times)%nat ->
  Forall (stale w) times ->
  (exists request,
     fst (calls times w) = map (fun _ => FetchPromise request) times
     /\ inFlight (snd (calls times w)) = [request]
     /\ requests (snd (calls times w))
        = (requests w + match promise (priceCache w) with
                        | Some _ => 0
                        | None => 1
                        end)%nat
     /\ forall outcome now,
          exists result,
            Forall (fun p =>
                      received
                        (settle request outcome now (snd (calls times w))) p
                      = Some result)
                   (fst (calls times w))
            /\ (forall v, outcome = Normal v -> result = Normal v))
  /\ (forall w0, reachable TTL w0 -> (length (inFlight w0) <= 1)%nat).
Proof.
  intros Hreach Hlen Hstale. split.
  - pose proof (reachable_coherent w Hreach) as Hc. unfold coherent in Hc.
    destruct times as [| now rest]; [simpl in Hlen; lia |].
    inversion Hstale as [| ? ? Hnow Hrest]; subst.
    assert (Hshape : exists request w1,
               calls (now :: rest) w
               = (map (fun _ => FetchPromise request) (now :: rest), w1)
               /\ inFlight w1 = [request]
               /\ requests w1
                  = (requests w + match promise (priceCache w) with
                                  | Some _ => 0
                                  | None => 1
                                  end)%nat).
    { destruct (promise (priceCache w)) as [pending |] eqn:Hp.
      - exists pending, w.
        rewrite (calls_attach (now :: rest) w pending Hp Hstale).
        repeat split; [exact Hc | lia].
      - exists (requests w). eexists.
        cbn [callAll]. rewrite (call_starts now w Hp Hnow).
        rewrite (calls_attach rest _ (requests w)); [| reflexivity | exact Hrest].
        cbn [map inFlight requests]. rewrite Hc.
        repeat split. cbn [requests]; lia. }
    destruct Hshape as [request [w1 [Hcalls [Hin Hreq]]]].
    exists request. rewrite Hcalls. cbn [fst snd].
    repeat split; [exact Hin | exact Hreq |].
    intros outcome now'. exists (settledAs outcome (priceCache w1)). split.
    + apply Forall_forall. intros p Hp.
      change (In p (map (fun _ : float => FetchPromise request) (now :: rest)))
        in Hp.
      apply in_map_iff in Hp. destruct Hp as [t [Hp _]]. subst p.
      apply received_settle.
    + intros v Hv. subst outcome. reflexivity.
  - intros w0 Hw0. pose proof (reachable_coherent w0 Hw0) as Hc0.
    unfold coherent in Hc0. rewrite Hc0.
    destruct (promise (priceCache w0)); simpl; lia.
Qed.

(** C6 (as amended). Whatever the TTL, when the stored [data] is truthy and
    its age is at most the TTL, a call returns the stored value, starts no
    request and changes nothing; hence a call that starts a request, the
    request succeeding with a truthy value, and a second call within the TTL
    of that success make one request in all. *)
Theorem cache_hit_within_ttl :
  (forall w now,
     ToBoolean (data (priceCache w)) = true ->
     (now - fetchedAt (priceCache w) <=? TTL) = true ->
     call now w = (Resolved (data (priceCache w)), w))
  /\ (forall w t0 freshData t1 t2,
        promise (priceCache w) = None ->
        fresh TTL t0 (priceCache w) = false ->
        ToBoolean freshData = true ->
        (t2 - t1 <=? TTL) = true ->
        let first := call t0 w in
        let w1 := settle (requests w) (Normal freshData) t1 (snd first) in
        let second := call t2 w1 in
        fst first = FetchPromise (requests w)
        /\ fst second = Resolved freshData
        /\ requests (snd second) = S (requests w)
        /\ received (snd second) (fst first) = Some (Normal freshData)).
Proof.
  assert (Hhit : forall w now,
             ToBoolean (data (priceCache w)) = true ->
             (now - fetchedAt (priceCache w) <=? TTL) = true ->
             call now w = (Resolved (data (priceCache w)), w)).
  { intros w now Hdata Hage. unfold getCachedPriceData, fresh.
    rewrite Hdata, Hage. reflexivity. }
  split; [exact Hhit |].
  intros w t0 freshData t1 t2 Hnone Hstale Htruthy Hage.
  rewrite (call_starts t0 w Hnone Hstale). cbn zeta. cbn [fst snd].
  rewrite Hhit; [| exact Htruthy | exact Hage].
  cbn [fst snd]. repeat split.
  apply received_settle.
Qed.

(** C5 (as amended). When a request fails while the stored [data] is truthy,
    its promise resolves to the stored value, and [data] and [fetchedAt]
    stay as they are; a success that stores a truthy value leaves such a
    state, whatever calls follow. When a request fails while the stored
    [data] is falsy, as it is on the very first call, the promise rejects
    with the failure, and every caller waiting on it receives the failure. *)
Theorem stale_value_on_failure :
  (forall w request err now,
     ToBoolean (data (priceCache w)) = true ->
     let w' := settle request (Throw err) now w in
     received w' (FetchPromise request) = Some (Normal (data (priceCache w)))
     /\ data (priceCache w') = data (priceCache w)
     /\ fetchedAt (priceCache w') = fetchedAt (priceCache w))
  /\ (forall w request freshData t1 times,
        ToBoolean freshData = true ->
        let w1 := snd (calls times (settle request (Normal freshData) t1 w)) in
        data (priceCache w1) = freshData
        /\ fetchedAt (priceCache w1) = t1
        /\ ToBoolean (data (priceCache w1)) = true)
  /\ (forall w request err now,
        ToBoolean (data (priceCache w)) = false ->
        received (settle request (Throw err) now w) (FetchPromise request)
        = Some (Throw err))
  /\ (forall times err now,
        Forall (fun p =>
                  received (settle 0 (Throw err) now (snd (calls times initial)))
                    p
                  = Some (Throw err))
               (fst (calls times initial))).
Proof.
  split; [| split; [| split]].
  - intros w request err now Htruthy. cbn zeta.
    rewrite received_settle. cbn [settledAs]. rewrite Htruthy.
    repeat split.
  - intros w request freshData t1 times Htruthy. cbn zeta.
    destruct (calls_keep_value times
                (settle request (Normal freshData) t1 w)) as [Hd Hf].
    rewrite Hd, Hf. repeat split. exact Htruthy.
  - intros w request err now Hfalsy.
    rewrite received_settle. cbn [settledAs]. rewrite Hfalsy. reflexivity.
  - intros times err now.
    assert (Hstale : Forall (stale initial) times).
    { apply Forall_forall. intros t _. reflexivity. }
    destruct times as [| t0 rest].
    + constructor.
    + inversion Hstale as [| ? ? Ht0 Hrest]; subst.
      cbn [callAll].
      rewrite (call_starts t0 initial eq_refl Ht0).
      rewrite (calls_attach rest _ 0); [| reflexivity | exact Hrest].
      cbn [fst snd]. apply Forall_forall. intros p Hp.
      assert (Hp' : p = FetchPromise 0).
      { destruct Hp as [Hp | Hp]; [symmetry; exact Hp |].
        apply in_map_iff in Hp. destruct Hp as [t [Hp _]].
        symmetry. exact Hp. }
      subst p. rewrite received_settle. reflexivity.
Qed.

End CacheProperties.

(** ** Properties of the status handler *)

Section HandlerProperties.

Variable StringToNumber : string -> float.
Variable NumberToString : float -> string.

Abbreviation sanitize' := (sanitizeNumber StringToNumber NumberToString).
Abbreviation reconcile' := (extractValuePools StringToNumber NumberToString).
Abbreviation build := (buildSnapshot StringToNumber NumberToString).
Abbreviation handler := (statusHandler StringToNumber NumberToString).

Lemma sanitizeNumber_finiteOrNull (value : JsVal) (field : option float) :
  sanitize' value = Normal field -> finiteOrNull field = true.
Proof.
  destruct field as [num |]; [| reflexivity].
  exact (sanitizeNumber_finite StringToNumber NumberToString value num).
Qed.

Lemma transparent_finite (info supply : JsVal)
  (vp : ValuePools) :
  reconcile' info supply = Normal vp ->
  PrimFloat.is_finite (transparent vp) = true.
Proof.
  intros Hvp.
  destruct (extractValuePools_returned _ _ info supply vp Hvp)
    as [t0 [_ [_ [_ [_ [_ [_ [_ Htr]]]]]]]].
  rewrite Htr, sanitizeNumber_number.
  destruct (PrimFloat.is_finite (inferTransparent _ _ _ _)) eqn:Hfin;
    [exact Hfin | reflexivity].
Qed.

(** What [buildSnapshot] returns: six sanitized fields, the reconciled
    pools, and [height] and [mempoolSize] as read from the payloads. *)
Lemma buildSnapshot_returned (priceData infoData mempoolData : JsVal)
  (now : float) (s : StatusSnapshot) :
  build priceData infoData mempoolData now = Normal s ->
  let priceEntry := priceEntryOf priceData in
  sanitize' (priceEntry ?. "current_price" ?? priceEntry ?. "usd")
  = Normal (priceUsd s)
  /\ sanitize' (priceEntry ?. "price_change_percentage_24h"
                  ?? priceEntry ?. "usd_24h_change")
     = Normal (priceChange24h s)
  /\ sanitize' (priceEntry ?. "market_cap" ?? priceEntry ?. "usd_market_cap")
     = Normal (marketCapUsd s)
  /\ sanitize' (priceEntry ?. "market_cap_change_percentage_24h" ?? JNull)
     = Normal (marketCapChange24h s)
  /\ sanitize' (priceEntry ?. "market_cap_change_24h" ?? JNull)
     = Normal (marketCapChangeUsd s)
  /\ sanitize' (priceEntry ?. "circulating_supply" ?? JNull)
     = Normal (circulatingSupply s)
  /\ reconcile' infoData (nullable (circulatingSupply s))
     = Normal (valuePools s)
  /\ height s = heightOf infoData
  /\ mempoolSize s = mempoolSizeOf mempoolData
  /\ timestamp s = now.
Proof.
  unfold buildSnapshot. intros H.
  apply bind_normal in H. destruct H as [f1 [H1 H]].
  apply bind_normal in H. destruct H as [f2 [H2 H]].
  apply bind_normal in H. destruct H as [f3 [H3 H]].
  apply bind_normal in H. destruct H as [f4 [H4 H]].
  apply bind_normal in H. destruct H as [f5 [H5 H]].
  apply bind_normal in H. destruct H as [f6 [H6 H]].
  apply bind_normal in H. destruct H as [vp [Hvp H]].
  inversion H; subst s; clear H.
  cbn [timestamp priceUsd priceChange24h marketCapUsd marketCapChange24h
       marketCapChangeUsd circulatingSupply height mempoolSize valuePools].
  repeat split; assumption.
Qed.

(** The mempool payload decides [mempoolSize] and nothing else. *)
Lemma buildSnapshot_mempool (priceData infoData mempoolData other : JsVal)
  (now : float) (s : StatusSnapshot) :
  build priceData infoData mempoolData now = Normal s ->
  build priceData infoData other now
  = Normal {| timestamp := timestamp s;
              priceUsd := priceUsd s;
              priceChange24h := priceChange24h s;
              marketCapUsd := marketCapUsd s;
              marketCapChange24h := marketCapChange24h s;
              marketCapChangeUsd := marketCapChangeUsd s;
              circulatingSupply := circulatingSupply s;
              height := height s;
              mempoolSize := mempoolSizeOf other;
              valuePools := valuePools s |}.
Proof.
  intros H.
  destruct (buildSnapshot_returned _ _ _ _ _ H)
    as [H1 [H2 [H3 [H4 [H5 [H6 [Hvp [Hh [_ Ht]]]]]]]]].
  unfold buildSnapshot.
  rewrite H1; cbn [bind]. rewrite H2; cbn [bind]. rewrite H3; cbn [bind].
  rewrite H4; cbn [bind]. rewrite H5; cbn [bind]. rewrite H6; cbn [bind].
  rewrite Hvp; cbn [bind]. rewrite Hh, Ht. reflexivity.
Qed.

Lemma handler_snapshot (price info mempool : Completion JsVal) (now : float)
  (s : StatusSnapshot) :
  body (handler price info mempool now) = SnapshotBody s ->
  exists priceData infoData mempoolData,
    price = Normal priceData /\ info = Normal infoData
    /\ build priceData infoData mempoolData now = Normal s.
Proof.
  unfold statusHandler.
  destruct price as [priceData | e]; [| discriminate].
  destruct info as [infoData | e]; [| discriminate].
  cbn [bind].
  destruct (build priceData infoData _ now) as [s' | e] eqn:Hb;
    [| discriminate].
  cbn [body]. intros H. inversion H; subst s'.
  exists priceData, infoData. eexists. repeat split. exact Hb.
Qed.

(** C1 (as amended). In every snapshot the handler sends, [priceUsd],
    [priceChange24h], [marketCapUsd], [marketCapChange24h],
    [marketCapChangeUsd] and [circulatingSupply] are each [null] or a finite
    number, and [valuePools.transparent] is a finite number. *)
Theorem sanitized_fields_finite (price info mempool : Completion JsVal)
  (now : float) (s : StatusSnapshot) :
  body (handler price info mempool now) = SnapshotBody s ->
  finiteOrNull (priceUsd s) = true
  /\ finiteOrNull (priceChange24h s) = true
  /\ finiteOrNull (marketCapUsd s) = true
  /\ finiteOrNull (marketCapChange24h s) = true
  /\ finiteOrNull (marketCapChangeUsd s) = true
  /\ finiteOrNull (circulatingSupply s) = true
  /\ PrimFloat.is_finite (transparent (valuePools s)) = true.
Proof.
  intros H.
  destruct (handler_snapshot _ _ _ _ _ H) as [pd [inf [mp [_ [_ Hb]]]]].
  destruct (buildSnapshot_returned _ _ _ _ _ Hb)
    as [H1 [H2 [H3 [H4 [H5 [H6 [Hvp _]]]]]]].
  repeat split;
    try (eapply sanitizeNumber_finiteOrNull; eassumption).
  exact (transparent_finite _ _ _ Hvp).
Qed.

(** C8 (as amended). The outcome of the mempool request never changes the
    status of the response. When the price and info requests succeed and
    building the snapshot raises no exception, the handler answers 200 with
    the full snapshot, whatever the mempool request did, and a failed mempool
    request leaves [mempoolSize] at 0. When the price promise rejects, as it
    does when the price request fails and the cache has nothing to serve, or
    the info request fails, the handler answers 500 with the body
    [{ error: "upstream_failed" }]. *)
Theorem mempool_is_best_effort (price info mempool : Completion JsVal)
  (now : float) :
  (forall mempool',
     status (handler price info mempool now)
     = status (handler price info mempool' now))
  /\ (forall priceData infoData mempoolData s,
        price = Normal priceData -> info = Normal infoData ->
        build priceData infoData mempoolData now = Normal s ->
        exists sent,
          handler price info mempool now
          = {| status := 200; body := SnapshotBody sent |}
          /\ timestamp sent = timestamp s
          /\ priceUsd sent = priceUsd s
          /\ priceChange24h sent = priceChange24h s
          /\ marketCapUsd sent = marketCapUsd s
          /\ marketCapChange24h sent = marketCapChange24h s
          /\ marketCapChangeUsd sent = marketCapChangeUsd s
          /\ circulatingSupply sent = circulatingSupply s
          /\ height sent = height s
          /\ valuePools sent = valuePools s
          /\ (forall e, mempool = Throw e -> mempoolSize sent = JNum 0))
  /\ ((exists e, price = Throw e) \/ (exists e, info = Throw e) ->
      handler price info mempool now
      = {| status := 500; body := ErrorBody "upstream_failed" |})
  /\ (forall w request err t,
        ToBoolean (data (priceCache w)) = false ->
        exists rejected,
          received (settle request (Throw err) t w) (FetchPromise request)
          = Some rejected
          /\ handler rejected info mempool now
             = {| status := 500; body := ErrorBody "upstream_failed" |}).
Proof.
  split; [| split; [| split]].
  - intros mempool'. unfold statusHandler.
    destruct price as [priceData | e]; [| reflexivity].
    destruct info as [infoData | e]; [| reflexivity].
    cbn [bind].
    destruct (build priceData infoData
                (match mempool with Normal v => v | Throw _ => JNull end) now)
      as [s | e] eqn:Hb.
    + rewrite (buildSnapshot_mempool _ _ _
                 (match mempool' with Normal v => v | Throw _ => JNull end)
                 _ _ Hb).
      reflexivity.
    + destruct (build priceData infoData
                  (match mempool' with Normal v => v | Throw _ => JNull end)
                  now) as [s' | e'] eqn:Hb'; [| reflexivity].
      rewrite (buildSnapshot_mempool _ _ _
                 (match mempool with Normal v => v | Throw _ => JNull end)
                 _ _ Hb') in Hb.
      discriminate Hb.
  - intros priceData infoData mempoolData s Hp Hi Hb. subst price info.
    unfold statusHandler. cbn [bind].
    rewrite (buildSnapshot_mempool _ _ _
               (match mempool with Normal v => v | Throw _ => JNull end)
               _ _ Hb).
    eexists. split; [reflexivity |].
    cbn [timestamp priceUsd priceChange24h marketCapUsd marketCapChange24h
         marketCapChangeUsd circulatingSupply height mempoolSize valuePools].
    repeat split. intros e He. subst mempool. reflexivity.
  - intros [[e He] | [e He]]; subst; unfold statusHandler.
    + reflexivity.
    + destruct price; reflexivity.
  - intros w request err t Hfalsy. exists (Throw err). split.
    + rewrite received_settle. cbn [settledAs]. rewrite Hfalsy. reflexivity.
    + reflexivity.
Qed.

End HandlerProperties.

(** ** The claims on concrete payloads and states *)

Abbreviation exFind :=
  (find exampleStringToNumber exampleNumberToString).
Abbreviation exReconcile :=
  (extractValuePools exampleStringToNumber exampleNumberToString).
Abbreviation exHandler :=
  (statusHandler exampleStringToNumber exampleNumberToString).
Abbreviation exBuild :=
  (buildSnapshot exampleStringToNumber exampleNumberToString).

(** C1, as stated, fails: a height that the info payload holds as a string
    is sent as that string, in a snapshot whose other fields are all
    finite. *)
Lemma height_sent_as_string :
  exHandler (Normal marketsPrice) (Normal stringHeightInfo)
    (Normal emptyMempool) exampleNow
  = {| status := 200; body := SnapshotBody stringHeightSnapshot |}
  /\ height stringHeightSnapshot = JStr "2500000"
  /\ finiteNumberOrNull (height stringHeightSnapshot) = false
  /\ allFieldsFiniteOrNull stringHeightSnapshot = false.
Proof. repeat split. Qed.

(** The sanitized fields of the snapshot sent for [marketsPrice] and
    [plainInfo]. *)
Lemma sanitized_fields_finite_witness :
  body (exHandler (Normal marketsPrice) (Normal plainInfo)
          (Throw upstreamError) exampleNow)
  = SnapshotBody plainSnapshot
  /\ finiteOrNull (priceUsd plainSnapshot) = true
  /\ finiteOrNull (priceChange24h plainSnapshot) = true
  /\ finiteOrNull (marketCapUsd plainSnapshot) = true
  /\ finiteOrNull (marketCapChange24h plainSnapshot) = true
  /\ finiteOrNull (marketCapChangeUsd plainSnapshot) = true
  /\ finiteOrNull (circulatingSupply plainSnapshot) = true
  /\ PrimFloat.is_finite (transparent (valuePools plainSnapshot)) = true.
Proof.
  split; [reflexivity |].
  apply (sanitized_fields_finite exampleStringToNumber exampleNumberToString
           (Normal marketsPrice) (Normal plainInfo) (Throw upstreamError)
           exampleNow plainSnapshot).
  reflexivity.
Defined.

(** C2, as stated, fails: an extracted transparent value of -5 that the
    inference does not replace is returned as -5, not as 0. *)
Lemma negative_transparent_is_kept :
  exFind (poolRecords negativeInfo) "transparent" = Normal (-5)
  /\ (-5 <=? 0) = true
  /\ exReconcile negativeInfo JNull = Normal negativePools
  /\ PrimFloat.is_finite (totalChain negativePools) = true
  /\ (let inferred := totalChain negativePools - shielded negativePools
                      - lockbox negativePools in
      PrimFloat.is_finite inferred && (0 <? inferred)) = false
  /\ transparent negativePools = -5
  /\ transparent negativePools <> 0.
Proof.
  repeat split.
  intros H. apply (f_equal (fun x => x =? 0)) in H. discriminate H.
Qed.

(** The inference on the spec's example: 20 - 6 - 4 = 10. *)
Lemma transparent_inference_witness :
  exFind (poolRecords inferenceInfo) "transparent" = Normal 0
  /\ exReconcile inferenceInfo (JNum 20) = Normal inferencePools
  /\ (0 <=? 0) = true
  /\ PrimFloat.is_finite (totalChain inferencePools) = true
  /\ transparent inferencePools = 10.
Proof.
  do 4 (split; [reflexivity |]).
  exact (proj1 (transparent_inference exampleStringToNumber
                  exampleNumberToString inferenceInfo (JNum 20) 0
                  inferencePools eq_refl eq_refl eq_refl eq_refl)).
Defined.

(** C3, as stated, fails: a [chainValue] that is the boolean [true] yields
    1, not 0, and a [null] among the pool records ahead of a match makes the
    search throw. *)
Lemma chainValue_is_converted :
  exFind (poolRecords booleanInfo) "sprout" = Normal 1
  /\ (1 =? 0) = false
  /\ exFind (poolRecords nullRecordInfo) "sprout" = Throw TypeError.
Proof. repeat split. Qed.

(** The search on [booleanInfo]. *)
Lemma find_converts_chainValue_witness :
  exFind (poolRecords booleanInfo) "sprout" = Normal 1
  /\ exists p,
       Array_find (hasId "sprout") (poolRecords booleanInfo) = Normal p
       /\ p ?. "chainValue" = JBool true.
Proof.
  split; [reflexivity |].
  destruct (find_converts_chainValue exampleStringToNumber
              exampleNumberToString (poolRecords booleanInfo) "sprout" 1
              eq_refl) as [p [Hp _]].
  exists p. split; [exact Hp |].
  injection Hp as Hp. rewrite <- Hp. reflexivity.
Defined.

(** Both choices of [totalChain]: the sum on [plainInfo] with no supply, the
    supply on [inferenceInfo] with 20. *)
Lemma totalChain_is_supply_or_sum_witness :
  exReconcile plainInfo JNull = Normal plainPools
  /\ totalChain plainPools = 110
  /\ exReconcile inferenceInfo (JNum 20) = Normal inferencePools
  /\ PrimFloat.is_finite 20 = true
  /\ (0 <? 20) = true
  /\ totalChain inferencePools = 20.
Proof.
  split; [reflexivity |].
  destruct (totalChain_is_supply_or_sum exampleStringToNumber
              exampleNumberToString plainInfo JNull plainPools eq_refl)
    as [[t0 [Ht0 [_ Hsum]]] _].
  split.
  { rewrite Hsum; [| intros c Hc; discriminate Hc].
    injection Ht0 as Ht0. rewrite <- Ht0. reflexivity. }
  do 3 (split; [reflexivity |]).
  destruct (totalChain_is_supply_or_sum exampleStringToNumber
              exampleNumberToString inferenceInfo (JNum 20) inferencePools
              eq_refl)
    as [[t1 [_ [Hsupply _]]] _].
  exact (Hsupply 20 eq_refl eq_refl eq_refl).
Defined.

(** 6 = 1 + 2 + 3 on [inferenceInfo]. *)
Lemma shielded_is_sum_witness :
  exReconcile inferenceInfo (JNum 20) = Normal inferencePools
  /\ shielded inferencePools
     = sprout inferencePools + sapling inferencePools
       + orchard inferencePools.
Proof.
  split; [reflexivity |].
  apply (shielded_is_sum exampleStringToNumber exampleNumberToString
           inferenceInfo (JNum 20) inferencePools).
  reflexivity.
Defined.

(** The four pools of [inferenceInfo]. *)
Lemma other_pools_are_extracted_witness :
  exReconcile inferenceInfo (JNum 20) = Normal inferencePools
  /\ exFind (poolRecords inferenceInfo) "sprout"
     = Normal (sprout inferencePools)
  /\ exFind (poolRecords inferenceInfo) "sapling"
     = Normal (sapling inferencePools)
  /\ exFind (poolRecords inferenceInfo) "orchard"
     = Normal (orchard inferencePools)
  /\ exFind (poolRecords inferenceInfo) "lockbox"
     = Normal (lockbox inferencePools).
Proof.
  split; [reflexivity |].
  destruct (other_pools_are_extracted exampleStringToNumber
              exampleNumberToString inferenceInfo (JNum 20) inferencePools
              eq_refl) as [H1 [H2 [H3 [H4 _]]]].
  repeat split; assumption.
Defined.

(** C8, as stated, fails: the price and info requests succeed, the info
    payload lists a [null] among its pool records, and the handler answers
    500. *)
Lemma null_pool_record_answers_500 :
  exHandler (Normal marketsPrice) (Normal nullRecordInfo)
    (Normal emptyMempool) exampleNow
  = {| status := 500; body := ErrorBody "upstream_failed" |}.
Proof. reflexivity. Qed.

(** A failed mempool request with [marketsPrice] and [plainInfo], and a
    rejected price promise. *)
Lemma mempool_is_best_effort_witness :
  exBuild marketsPrice plainInfo emptyMempool exampleNow
  = Normal plainSnapshot
  /\ (exists sent,
        exHandler (Normal marketsPrice) (Normal plainInfo)
          (Throw upstreamError) exampleNow
        = {| status := 200; body := SnapshotBody sent |}
        /\ valuePools sent = valuePools plainSnapshot
        /\ mempoolSize sent = JNum 0)
  /\ exHandler (Throw upstreamError) (Normal plainInfo)
       (Normal emptyMempool) exampleNow
     = {| status := 500; body := ErrorBody "upstream_failed" |}
  /\ ToBoolean (data (priceCache initial)) = false
  /\ (exists rejected,
        received
          (settle 0 (Throw upstreamError) 1001
             (snd (getCachedPriceData 60000 1000 initial)))
          (FetchPromise 0)
        = Some rejected
        /\ exHandler rejected (Normal plainInfo) (Normal emptyMempool)
             exampleNow
           = {| status := 500; body := ErrorBody "upstream_failed" |}).
Proof.
  split; [reflexivity |]. split; [| split; [| split; [reflexivity |]]].
  - destruct (proj1 (proj2 (mempool_is_best_effort exampleStringToNumber
                              exampleNumberToString (Normal marketsPrice)
                              (Normal plainInfo) (Throw upstreamError)
                              exampleNow))
                marketsPrice plainInfo emptyMempool plainSnapshot
                eq_refl eq_refl eq_refl)
      as [sent [Hsent [_ [_ [_ [_ [_ [_ [_ [_ [Hpools Hsize]]]]]]]]]]].
    exists sent. split; [exact Hsent |]. split; [exact Hpools |].
    exact (Hsize upstreamError eq_refl).
  - apply (proj1 (proj2 (proj2 (mempool_is_best_effort
                                  exampleStringToNumber exampleNumberToString
                                  (Throw upstreamError) (Normal plainInfo)
                                  (Normal emptyMempool) exampleNow)))).
    left. exists upstreamError. reflexivity.
  - exact (proj2 (proj2 (proj2 (mempool_is_best_effort
                                  exampleStringToNumber exampleNumberToString
                                  (Normal marketsPrice) (Normal plainInfo)
                                  (Normal emptyMempool) exampleNow)))
             (snd (getCachedPriceData 60000 1000 initial)) 0%nat
             upstreamError 1001 eq_refl).
Defined.

(** [afterEmptyBody] is a state of the cache: a call, then the request
    settling. *)
Lemma afterEmptyBody_reachable : reachable 60000 afterEmptyBody.
Proof.
  unfold afterEmptyBody.
  eapply reachable_step;
    [eapply reachable_step; [apply reachable_initial | apply step_call] |].
  apply step_settle. left. reflexivity.
Qed.

(** Two callers on the initial cache, 1 ms apart. *)
Lemma single_flight_witness :
  reachable 60000 initial
  /\ (2 <= length [1000; 1001])%nat
  /\ Forall (fun now => fresh 60000 now (priceCache initial) = false)
       [1000; 1001]
  /\ exists request,
       fst (callAll 60000 [1000; 1001] initial)
       = [FetchPromise request; FetchPromise request]
       /\ inFlight (snd (callAll 60000 [1000; 1001] initial)) = [request]
       /\ requests (snd (callAll 60000 [1000; 1001] initial)) = 1%nat.
Proof.
  assert (Hstale : Forall
                     (fun now => fresh 60000 now (priceCache initial) = false)
                     [1000; 1001])
    by (repeat constructor).
  assert (Hlen : (2 <= length [1000; 1001])%nat) by (simpl; lia).
  split; [apply reachable_initial |].
  split; [exact Hlen |]. split; [exact Hstale |].
  destruct (proj1 (single_flight 60000 initial [1000; 1001]
                     (reachable_initial 60000) Hlen Hstale))
    as [request [Hps [Hin [Hreq _]]]].
  exists request. split; [exact Hps |]. split; [exact Hin | exact Hreq].
Defined.

(** C5, as stated, fails: the first request succeeds with an empty body,
    which is stored; the next request fails, and the callers receive the
    failure, not the stored value. *)
Lemma empty_body_is_no_fallback :
  reachable 60000 afterEmptyBody
  /\ data (priceCache afterEmptyBody) = JStr ""
  /\ fst (getCachedPriceData 60000 70000 afterEmptyBody) = FetchPromise 1
  /\ received
       (settle 1 (Throw upstreamError) 70001
          (snd (getCachedPriceData 60000 70000 afterEmptyBody)))
       (FetchPromise 1)
     = Some (Throw upstreamError).
Proof.
  split; [exact afterEmptyBody_reachable |]. repeat split.
Qed.

(** A failure after [marketsPrice] was stored, and a failure on the first
    call. *)
Lemma stale_value_on_failure_witness :
  ToBoolean (data (priceCache afterMarkets)) = true
  /\ received
       (settle 1 (Throw upstreamError) 70001
          (snd (getCachedPriceData 60000 70000 afterMarkets)))
       (FetchPromise 1)
     = Some (Normal marketsPrice)
  /\ fetchedAt
       (priceCache
          (settle 1 (Throw upstreamError) 70001
             (snd (getCachedPriceData 60000 70000 afterMarkets))))
     = 1001
  /\ ToBoolean marketsPrice = true
  /\ data (priceCache (snd (callAll 60000 [70000; 70001] afterMarkets)))
     = marketsPrice
  /\ ToBoolean (data (priceCache initial)) = false
  /\ received
       (settle 0 (Throw upstreamError) 1001
          (snd (getCachedPriceData 60000 1000 initial)))
       (FetchPromise 0)
     = Some (Throw upstreamError).
Proof.
  split; [reflexivity |].
  destruct (proj1 (stale_value_on_failure 60000)
              (snd (getCachedPriceData 60000 70000 afterMarkets)) 1%nat
              upstreamError 70001 eq_refl) as [Hreceived [_ Hclock]].
  split; [exact Hreceived |]. split; [exact Hclock |].
  split; [reflexivity |].
  split; [exact (proj1 (proj1 (proj2 (stale_value_on_failure 60000))
                          (snd (getCachedPriceData 60000 1000 initial))
                          0%nat marketsPrice 1001 [70000; 70001] eq_refl))
         |].
  split; [reflexivity |].
  exact (proj1 (proj2 (proj2 (stale_value_on_failure 60000)))
           (snd (getCachedPriceData 60000 1000 initial)) 0%nat
           upstreamError 1001 eq_refl).
Defined.

(** C6, as stated, fails: the cache holds the empty string of an empty body,
    fetched 1 ms ago, and a call starts a second request. *)
Lemma empty_body_is_never_a_hit :
  reachable 60000 afterEmptyBody
  /\ data (priceCache afterEmptyBody) = JStr ""
  /\ (1002 - fetchedAt (priceCache afterEmptyBody) <=? 60000) = true
  /\ fst (getCachedPriceData 60000 1002 afterEmptyBody) = FetchPromise 1
  /\ requests afterEmptyBody = 1%nat
  /\ requests (snd (getCachedPriceData 60000 1002 afterEmptyBody)) = 2%nat.
Proof.
  split; [exact afterEmptyBody_reachable |]. repeat split.
Qed.

(** A call 999 ms after [marketsPrice] was stored, the TTL being one
    minute. *)
Lemma cache_hit_within_ttl_witness :
  ToBoolean (data (priceCache afterMarkets)) = true
  /\ (2000 - fetchedAt (priceCache afterMarkets) <=? 60000) = true
  /\ getCachedPriceData 60000 2000 afterMarkets
     = (Resolved marketsPrice, afterMarkets)
  /\ promise (priceCache initial) = None
  /\ fresh 60000 1000 (priceCache initial) = false
  /\ ToBoolean marketsPrice = true
  /\ (2000 - 1001 <=? 60000) = true
  /\ fst (getCachedPriceData 60000 2000 afterMarkets) = Resolved marketsPrice
  /\ requests (snd (getCachedPriceData 60000 2000 afterMarkets)) = 1%nat.
Proof.
  do 2 (split; [reflexivity |]).
  split; [exact (proj1 (cache_hit_within_ttl 60000) afterMarkets 2000
                   eq_refl eq_refl) |].
  do 4 (split; [reflexivity |]).
  destruct (proj2 (cache_hit_within_ttl 60000) initial 1000 marketsPrice
              1001 2000 eq_refl eq_refl eq_refl eq_refl)
    as [_ [Hsecond [Hrequests _]]].
  split; [exact Hsecond | exact Hrequests].
Defined.

(** ** Further properties: the reconciler and the handler *)

Section FloatFacts.

(** The class of a finite number. *)
Lemma finite_class (x : float) :
  PrimFloat.is_finite x = true ->
  match Prim2SF x with
  | S754_zero _ | S754_finite _ _ _ => True
  | _ => False
  end.
Proof.
  intros H. destruct (Prim2SF x) eqn:E; try exact I.
  - rewrite <- (SF2Prim_Prim2SF x), E in H. destruct s; discriminate H.
  - rewrite <- (SF2Prim_Prim2SF x), E in H. discriminate H.
Qed.

Lemma Prim2SF_inj (x y : float) : Prim2SF x = Prim2SF y -> x = y.
Proof.
  intros H. rewrite <- (SF2Prim_Prim2SF x), <- (SF2Prim_Prim2SF y), H.
  reflexivity.
Qed.

(** A number above 0 is truthy and is not below 0. *)
Lemma positive_number (x : float) :
  (0 <? x) = true -> ToBoolean (JNum x) = true /\ (x <=? 0) = false.
Proof.
  intros H. unfold ToBoolean, PrimFloat.is_nan.
  rewrite FloatAxioms.ltb_spec in H.
  rewrite !FloatAxioms.eqb_spec, FloatAxioms.leb_spec.
  change (Prim2SF 0) with (S754_zero false) in *.
  destruct (Prim2SF x) as [s | s | | s m e]; try discriminate H.
  - destruct s; [discriminate H | split; reflexivity].
  - destruct s; [discriminate H |].
    unfold SFeqb, SFleb, SFcompare. rewrite Pos.compare_refl, Z.compare_refl.
    split; reflexivity.
Qed.

(** Taking 0 from a finite number above 0 leaves it as it is. *)
Lemma sub_zero (x : float) :
  PrimFloat.is_finite x = true -> (0 <? x) = true -> x - 0 = x.
Proof.
  intros Hfin Hpos. apply Prim2SF_inj. rewrite FloatAxioms.sub_spec.
  change (Prim2SF 0) with (S754_zero false).
  apply finite_class in Hfin. rewrite FloatAxioms.ltb_spec in Hpos.
  change (Prim2SF 0) with (S754_zero false) in Hpos.
  destruct (Prim2SF x) as [s | s | | s m e]; try contradiction.
  - discriminate Hpos.
  - reflexivity.
Qed.

(** Nothing compares with [NaN]. *)
Lemma leb_nan (x : float) : (x <=? nan) = false.
Proof.
  rewrite FloatAxioms.leb_spec. change (Prim2SF nan) with S754_nan.
  unfold SFleb, SFcompare. destruct (Prim2SF x); reflexivity.
Qed.

(** A finite number times 0 is a zero. *)
Lemma mul_zero (x : float) :
  PrimFloat.is_finite x = true -> x * 0 = 0 \/ x * 0 = -0.
Proof.
  intros H. apply finite_class in H.
  assert (E : exists b, Prim2SF (x * 0) = S754_zero b).
  { rewrite FloatAxioms.mul_spec. change (Prim2SF 0) with (S754_zero false).
    destruct (Prim2SF x) as [s | s | | s m e]; try contradiction;
      eexists; reflexivity. }
  destruct E as [b E].
  rewrite <- (SF2Prim_Prim2SF (x * 0)), E. destruct b; [right | left];
    reflexivity.
Qed.

End FloatFacts.

Section ServerExtras.

Variable StringToNumber : string -> float.
Variable NumberToString : float -> string.

Abbreviation Number' := (ToNumber StringToNumber NumberToString).
Abbreviation sanitize2 := (sanitizeNumber StringToNumber NumberToString).
Abbreviation find2 := (find StringToNumber NumberToString).
Abbreviation reconcile2 := (extractValuePools StringToNumber NumberToString).
Abbreviation build2 := (buildSnapshot StringToNumber NumberToString).
Abbreviation handler2 := (statusHandler StringToNumber NumberToString).

Lemma Array_find_skips (id : string) (before rest : list JsVal) :
  Forall (fun q => hasId id q = Normal false) before ->
  Array_find (hasId id) (before ++ rest) = Array_find (hasId id) rest.
Proof.
  induction 1 as [| q before Hq _ IH]; [reflexivity |].
  simpl. rewrite Hq. exact IH.
Qed.

(** X1. The search stops at the first record whose [id] matches: what
    follows it is never looked at, be it a second record of that [id] or a
    [null]. *)
Theorem find_takes_first_match (id : string) (before after : list JsVal)
  (p : JsVal) :
  Forall (fun q => hasId id q = Normal false) before ->
  hasId id p = Normal true ->
  find2 (before ++ p :: after) id = Number' (p ?. "chainValue" ?? JNum 0).
Proof.
  intros Hbefore Hp. unfold find.
  rewrite (Array_find_skips id before (p :: after) Hbefore).
  simpl. rewrite Hp. reflexivity.
Qed.

(** X2. A [null] among the pool records ahead of any record of the
    transparent pool makes the reconciler throw, and the handler answers 500
    whatever the price and mempool requests did. *)
Theorem null_record_ahead_answers_500 (info : JsVal)
  (before rest : list JsVal) (price mempool : Completion JsVal)
  (supply : JsVal) (now : float) :
  poolRecords info = before ++ JNull :: rest ->
  Forall (fun q => hasId "transparent" q = Normal false) before ->
  reconcile2 info supply = Throw TypeError
  /\ handler2 price (Normal info) mempool now
     = {| status := 500; body := ErrorBody "upstream_failed" |}.
Proof.
  intros Hrecords Hbefore.
  assert (Hthrow : forall s, reconcile2 info s = Throw TypeError).
  { intros s. unfold extractValuePools, find. rewrite Hrecords.
    rewrite (Array_find_skips "transparent" before (JNull :: rest) Hbefore).
    reflexivity. }
  split; [apply Hthrow |].
  unfold statusHandler. destruct price as [priceData | e]; [| reflexivity].
  cbn [bind]. unfold buildSnapshot.
  repeat match goal with
         | |- context [bind (sanitize2 ?v) _] =>
             destruct (sanitize2 v); cbn [bind]; [| reflexivity]
         end.
  rewrite Hthrow. reflexivity.
Qed.

(** X3. A payload with no pool record (no [valuePools] list, or an empty
    one) never makes the reconciler throw: with a circulating supply that is
    finite and above 0 the whole supply is returned as transparent, and
    with any other supply every pool and the total are 0. *)
Theorem no_pool_records (info supply : JsVal) :
  poolRecords info = [] ->
  (forall c, supply = JNum c -> PrimFloat.is_finite c = true ->
             (0 <? c) = true ->
             reconcile2 info supply
             = Normal {| transparent := c; sprout := 0; sapling := 0;
                         orchard := 0; lockbox := 0; shielded := 0;
                         totalChain := c |})
  /\ ((forall c, supply = JNum c ->
                 PrimFloat.is_finite c = false \/ (0 <? c) = false) ->
      reconcile2 info supply
      = Normal {| transparent := 0; sprout := 0; sapling := 0; orchard := 0;
                  lockbox := 0; shielded := 0; totalChain := 0 |}).
Proof.
  intros Hrecords. unfold extractValuePools. rewrite Hrecords.
  change (find2 [] "transparent") with (@Normal float 0).
  change (find2 [] "sprout") with (@Normal float 0).
  change (find2 [] "sapling") with (@Normal float 0).
  change (find2 [] "orchard") with (@Normal float 0).
  change (find2 [] "lockbox") with (@Normal float 0).
  cbn [bind]. change (0 + 0 + 0) with 0. change (0 + 0 + 0) with 0. split.
  - intros c Hc Hfin Hpos. subst supply. cbn [chooseTotal].
    rewrite Hfin, Hpos. cbn [andb]. unfold inferTransparent.
    change (negb (ToBoolean (JNum 0)) || (0 <=? 0)) with true.
    rewrite Hfin. cbn [andb]. cbv zeta.
    rewrite (sub_zero c Hfin Hpos), (sub_zero c Hfin Hpos), Hfin, Hpos.
    cbn [andb]. rewrite sanitizeNumber_number, Hfin. reflexivity.
  - intros Hbad.
    assert (Htotal : chooseTotal supply 0 = 0).
    { destruct supply as [| | b | c | s | l | props]; try reflexivity.
      simpl. destruct (Hbad c eq_refl) as [Hc | Hc]; rewrite Hc;
        [| rewrite andb_false_r]; reflexivity. }
    rewrite Htotal. reflexivity.
Qed.

(** X4. An extracted transparent value above 0 is never replaced by an
    inference: it is returned as it is when it is finite, and as 0 when it
    is infinite, whatever the circulating supply. *)
Theorem positive_transparent_is_kept (info supply : JsVal) (t0 : float)
  (vp : ValuePools) :
  find2 (poolRecords info) "transparent" = Normal t0 ->
  (0 <? t0) = true ->
  reconcile2 info supply = Normal vp ->
  transparent vp = if PrimFloat.is_finite t0 then t0 else 0.
Proof.
  intros Ht Hpos Hvp.
  destruct (extractValuePools_returned _ _ info supply vp Hvp)
    as [t1 [Ht1 [_ [_ [_ [_ [_ [_ Htr]]]]]]]].
  rewrite Ht in Ht1. inversion Ht1; subst t1; clear Ht1.
  destruct (positive_number t0 Hpos) as [Htruthy Hle].
  rewrite Htr, sanitizeNumber_number. unfold inferTransparent.
  rewrite Htruthy, Hle. cbn [negb orb andb].
  destruct (PrimFloat.is_finite t0); reflexivity.
Qed.

(** X5. Sanitizing what [sanitizeNumber] returned gives it back. *)
Theorem sanitizeNumber_idempotent (value : JsVal) (field : option float) :
  sanitize2 value = Normal field ->
  sanitize2 (nullable field) = Normal field.
Proof.
  intros H. destruct field as [num |]; [| reflexivity].
  cbn [nullable]. rewrite sanitizeNumber_number.
  rewrite (sanitizeNumber_finite _ _ value num H). reflexivity.
Qed.

Lemma sanitizeNumber_primitive (value : JsVal) :
  isPrimitive value = true -> exists field, sanitize2 value = Normal field.
Proof.
  intros H. unfold sanitizeNumber.
  destruct value; try discriminate H; simpl; eexists; reflexivity.
Qed.

Lemma coalesce_primitive (a b : JsVal) :
  isPrimitive a = true -> isPrimitive b = true -> isPrimitive (a ?? b) = true.
Proof.
  intros Ha Hb. unfold coalesce. destruct (isNullish a); assumption.
Qed.

(** The snapshot is built as soon as the price entry is plain and the pool
    records are well-formed. *)
Lemma buildSnapshot_returns (priceData infoData mempoolData : JsVal)
  (now : float) :
  plainEntry (priceEntryOf priceData) = true ->
  forallb wellFormedRecord (poolRecords infoData) = true ->
  exists s, build2 priceData infoData mempoolData now = Normal s.
Proof.
  intros Hentry Hrecords. unfold plainEntry, priceFields in Hentry.
  cbn [forallb] in Hentry.
  repeat match type of Hentry with
         | (_ && _) = true =>
             let H := fresh "Hfield" in
             apply andb_true_iff in Hentry; destruct Hentry as [H Hentry]
         end.
  unfold buildSnapshot.
  repeat match goal with
         | |- context [bind (sanitize2 ?v) _] =>
             let field := fresh "field" in
             let Hs := fresh "Hs" in
             destruct (sanitizeNumber_primitive v) as [field Hs];
             [ try (apply coalesce_primitive); try assumption; reflexivity
             | rewrite Hs; cbn [bind] ]
         end.
  destruct (extractValuePools_total StringToNumber NumberToString infoData
              (nullable field4) Hrecords) as [vp Hvp].
  rewrite Hvp. eexists. reflexivity.
Qed.

(** X6. The handler answers 200, whatever the mempool request did, as soon
    as the price and info requests succeed with a price entry whose fields
    are absent or primitives and with pool records that are objects whose
    [chainValue] is absent or a primitive. *)
Theorem plain_payloads_answer_200 (priceData infoData : JsVal)
  (mempool : Completion JsVal) (now : float) :
  plainEntry (priceEntryOf priceData) = true ->
  forallb wellFormedRecord (poolRecords infoData) = true ->
  status (handler2 (Normal priceData) (Normal infoData) mempool now) = 200%Z.
Proof.
  intros Hentry Hrecords. unfold statusHandler. cbn [bind].
  destruct (buildSnapshot_returns priceData infoData
              (match mempool with Normal v => v | Throw _ => JNull end) now
              Hentry Hrecords) as [s Hs].
  rewrite Hs. reflexivity.
Qed.

End ServerExtras.

Section SnapshotExtras.

Variable StringToNumber : string -> float.
Variable NumberToString : float -> string.

Abbreviation sanitize3 := (sanitizeNumber StringToNumber NumberToString).
Abbreviation reconcile3 := (extractValuePools StringToNumber NumberToString).
Abbreviation build3 := (buildSnapshot StringToNumber NumberToString).
Abbreviation handler3 := (statusHandler StringToNumber NumberToString).

Lemma coalesce_absent (a b : JsVal) : isNullish a = true -> a ?? b = b.
Proof. intros H. unfold coalesce. rewrite H. reflexivity. Qed.

Lemma coalesce_present (a b : JsVal) : isNullish a = false -> a ?? b = a.
Proof. intros H. unfold coalesce. rewrite H. reflexivity. Qed.

(** X7. The height is the first of [blocks], [blockchain.blocks] and
    [estimatedheight] that is neither absent nor [null], a 0 or an empty
    string included, and [null] when there is none: it is never
    [undefined]. *)
Theorem height_is_first_present (infoData : JsVal) :
  let blocks := infoData ?. "blocks" in
  let nested := infoData ?. "blockchain" ?. "blocks" in
  let estimated := infoData ?. "estimatedheight" in
  (isNullish blocks = false -> heightOf infoData = blocks)
  /\ (isNullish blocks = true -> isNullish nested = false ->
      heightOf infoData = nested)
  /\ (isNullish blocks = true -> isNullish nested = true ->
      isNullish estimated = false -> heightOf infoData = estimated)
  /\ (isNullish blocks = true -> isNullish nested = true ->
      isNullish estimated = true -> heightOf infoData = JNull)
  /\ heightOf infoData <> JUndefined.
Proof.
  cbv zeta. unfold heightOf.
  destruct (isNullish (infoData ?. "blocks")) eqn:H1.
  - rewrite (coalesce_absent _ _ H1).
    destruct (isNullish (infoData ?. "blockchain" ?. "blocks")) eqn:H2.
    + rewrite (coalesce_absent _ _ H2).
      destruct (isNullish (infoData ?. "estimatedheight")) eqn:H3.
      * rewrite (coalesce_absent _ _ H3).
        repeat split; try discriminate; reflexivity.
      * rewrite !(coalesce_present _ _ H3).
        repeat split; try discriminate; try reflexivity.
        intros E. rewrite E in H3. discriminate H3.
    + rewrite !(coalesce_present _ _ H2).
      repeat split; try discriminate; try reflexivity.
      intros E. rewrite E in H2. discriminate H2.
  - rewrite !(coalesce_present _ _ H1).
    repeat split; try discriminate; try reflexivity.
    intros E. rewrite E in H1. discriminate H1.
Qed.

(** X8. The mempool size is never [null] or [undefined]: the number of
    elements of an array, the [size] of another object, else its [length],
    and 0 for everything else, a failed request included, which counts as
    the payload [null]. *)
Theorem mempoolSize_is_present (mempoolData : JsVal) :
  isNullish (mempoolSizeOf mempoolData) = false
  /\ (forall elems, mempoolData = JArr elems ->
                    mempoolSizeOf mempoolData = JNum (arrayLength elems))
  /\ (forall props, mempoolData = JObj props ->
                    isNullish (lookup "size" props) = false ->
                    mempoolSizeOf mempoolData = lookup "size" props)
  /\ (forall props, mempoolData = JObj props ->
                    isNullish (lookup "size" props) = true ->
                    isNullish (lookup "length" props) = false ->
                    mempoolSizeOf mempoolData = lookup "length" props)
  /\ (isPrimitive mempoolData = true -> mempoolSizeOf mempoolData = JNum 0)
  /\ (forall price info e now,
        handler3 price info (Throw e) now
        = handler3 price info (Normal JNull) now).
Proof.
  split; [| split; [| split; [| split; [| split]]]].
  - destruct mempoolData; try reflexivity.
    cbn [mempoolSizeOf getOwn].
    destruct (isNullish (lookup "size" props)) eqn:H1.
    + rewrite (coalesce_absent _ _ H1).
      destruct (isNullish (lookup "length" props)) eqn:H2.
      * rewrite (coalesce_absent _ _ H2). reflexivity.
      * rewrite (coalesce_present _ _ H2). exact H2.
    + rewrite !(coalesce_present _ _ H1). exact H1.
  - intros elems H. subst. reflexivity.
  - intros props H Hsize. subst. cbn [mempoolSizeOf getOwn].
    rewrite !(coalesce_present _ _ Hsize). reflexivity.
  - intros props H Hsize Hlength. subst. cbn [mempoolSizeOf getOwn].
    rewrite (coalesce_absent _ _ Hsize), (coalesce_present _ _ Hlength).
    reflexivity.
  - destruct mempoolData; try discriminate; reflexivity.
  - reflexivity.
Qed.

Lemma priceEntryOf_first (e : JsVal) (rest : list JsVal)
  (others : list (string * JsVal)) :
  priceEntryOf (JArr (e :: rest)) = priceEntryOf (JObj (("zcash", e) :: others)).
Proof. reflexivity. Qed.

(** X9. The two shapes of price payload are read alike: an array whose
    first element is an entry and an object that holds the same entry under
    [zcash] give the same response. *)
Theorem price_shapes_agree (e : JsVal) (rest : list JsVal)
  (others : list (string * JsVal)) (info mempool : Completion JsVal)
  (now : float) :
  handler3 (Normal (JArr (e :: rest))) info mempool now
  = handler3 (Normal (JObj (("zcash", e) :: others))) info mempool now.
Proof.
  unfold statusHandler. cbn [bind]. destruct info as [infoData | err];
    [| reflexivity].
  cbn [bind]. unfold buildSnapshot.
  rewrite (priceEntryOf_first e rest others). reflexivity.
Qed.

(** X10. A price payload that holds no entry (an empty array, [null], a
    string, an object without [zcash]) fails nothing: the six price fields
    are [null], and the pools are reconciled with no circulating supply. *)
Theorem missing_price_entry (priceData infoData mempoolData : JsVal)
  (now : float) :
  priceEntryOf priceData = JNull ->
  build3 priceData infoData mempoolData now
  = (pools <- reconcile3 infoData JNull ;;
     Normal {| timestamp := now;
               priceUsd := None;
               priceChange24h := None;
               marketCapUsd := None;
               marketCapChange24h := None;
               marketCapChangeUsd := None;
               circulatingSupply := None;
               height := heightOf infoData;
               mempoolSize := mempoolSizeOf mempoolData;
               valuePools := pools |}).
Proof.
  intros Hentry. unfold buildSnapshot. rewrite Hentry. reflexivity.
Qed.

(** X11. The payload of the simple price endpoint fills [priceUsd],
    [priceChange24h] and [marketCapUsd] from [usd], [usd_24h_change] and
    [usd_market_cap], and leaves the three other price fields [null], so
    that the pools are reconciled with no circulating supply. *)
Theorem simple_price_shape (usd change cap : float)
  (infoData mempoolData : JsVal) (now : float) :
  PrimFloat.is_finite usd = true ->
  PrimFloat.is_finite change = true ->
  PrimFloat.is_finite cap = true ->
  build3 (simplePrice usd change cap) infoData mempoolData now
  = (pools <- reconcile3 infoData JNull ;;
     Normal {| timestamp := now;
               priceUsd := Some usd;
               priceChange24h := Some change;
               marketCapUsd := Some cap;
               marketCapChange24h := None;
               marketCapChangeUsd := None;
               circulatingSupply := None;
               height := heightOf infoData;
               mempoolSize := mempoolSizeOf mempoolData;
               valuePools := pools |}).
Proof.
  intros Husd Hchange Hcap. unfold buildSnapshot.
  change (priceEntryOf (simplePrice usd change cap))
    with (JObj [("usd", JNum usd); ("usd_24h_change", JNum change);
                ("usd_market_cap", JNum cap)]).
  change (sanitize3 (_ ?. "current_price" ?? _ ?. "usd"))
    with (sanitize3 (JNum usd)).
  change (sanitize3 (_ ?. "price_change_percentage_24h"
                       ?? _ ?. "usd_24h_change"))
    with (sanitize3 (JNum change)).
  change (sanitize3 (_ ?. "market_cap" ?? _ ?. "usd_market_cap"))
    with (sanitize3 (JNum cap)).
  rewrite !sanitizeNumber_number, Husd, Hchange, Hcap. reflexivity.
Qed.

End SnapshotExtras.

(** ** Further properties: the price cache *)

Section CacheExtras.

Variable TTL : float.

Lemma reachable_history (w : World) :
  reachable TTL w <-> exists past, history TTL past w.
Proof.
  split.
  - induction 1 as [| w w' e _ [past IH] Hstep].
    + exists []. constructor.
    + exists (e :: past). exact (history_step TTL past w w' e IH Hstep).
  - intros [past H]. induction H as [| past w w' e _ IH Hstep].
    + constructor.
    + exact (reachable_step TTL w w' e IH Hstep).
Qed.


(** X13. In every state of the cache, the stored value and its timestamp
    are the value and the time of one and the same successful request, or
    the [null] and 0 of the start. *)
Theorem value_has_its_timestamp (past : list Event) (w : World) :
  history TTL past w -> stamped past (priceCache w).
Proof.
  induction 1 as [| past w w' e _ IH Hstep].
  - left. split; reflexivity.
  - assert (Hlater : stamped past (priceCache w) ->
                     stamped (e :: past) (priceCache w)).
    { intros [Hinit | [request Hin]]; [left; exact Hinit |].
      right. exists request. right. exact Hin. }
    destruct Hstep as [now w | request outcome now w Hin].
    + destruct (call_keeps_value TTL now w) as [Hd Hf].
      unfold stamped. rewrite Hd, Hf. exact (Hlater IH).
    + destruct outcome as [freshData | err].
      * right. exists request. left. reflexivity.
      * exact (Hlater IH).
Qed.

(** X14. When the TTL is [NaN], as it is when [PRICE_CACHE_TTL_MS] is set
    to what is no number, no call is ever served from the cache: every call
    returns the promise of a request, a new one unless one is pending. *)
Theorem nan_ttl_never_hits (now : float) (w : World) :
  (exists request,
     fst (getCachedPriceData nan now w) = FetchPromise request)
  /\ (promise (priceCache w) = None ->
      requests (snd (getCachedPriceData nan now w)) = S (requests w)).
Proof.
  unfold getCachedPriceData, fresh. rewrite leb_nan, andb_false_r.
  destruct (promise (priceCache w)) as [pending |].
  - split; [exists pending; reflexivity | discriminate].
  - split; [exists (requests w); reflexivity | reflexivity].
Qed.

(** X15. A failed request is not held against the next caller: once it has
    settled, the first call on the stale entry starts a new request, the
    only one in flight. *)
Theorem failure_is_retried (w : World) (request : nat) (err : Exn)
  (failedAt now : float) :
  reachable TTL w ->
  In request (inFlight w) ->
  fresh TTL now (priceCache w) = false ->
  let retry :=
    getCachedPriceData TTL now (settle request (Throw err) failedAt w) in
  fst retry = FetchPromise (requests w)
  /\ requests (snd retry) = S (requests w)
  /\ inFlight (snd retry) = [requests w].
Proof.
  intros Hreach Hin Hstale. cbv zeta.
  pose proof (reachable_coherent TTL w Hreach) as Hc. unfold coherent in Hc.
  destruct (promise (priceCache w)) as [pending |] eqn:Hp;
    rewrite Hc in Hin; [| contradiction].
  destruct Hin as [Heq | []]. subst pending.
  rewrite call_starts; [| reflexivity | exact Hstale].
  cbn [fst snd requests inFlight settle]. rewrite Hc. cbn [filter].
  rewrite Nat.eqb_refl. repeat split.
Qed.

End CacheExtras.

(** ** Further properties: the client *)

Import Client.

Lemma lookup_setProp_same (k : string) (v : JsVal)
  (props : list (string * JsVal)) :
  lookup k (setProp k v props) = v.
Proof.
  induction props as [| [k' v'] rest IH]; simpl.
  - rewrite String.eqb_refl. reflexivity.
  - destruct (String.eqb k' k) eqn:E; simpl.
    + rewrite String.eqb_refl. reflexivity.
    + rewrite E. exact IH.
Qed.

Lemma lookup_setProp_other (k k0 : string) (v : JsVal)
  (props : list (string * JsVal)) :
  k <> k0 -> lookup k0 (setProp k v props) = lookup k0 props.
Proof.
  intros Hne. induction props as [| [k' v'] rest IH]; simpl.
  - destruct (String.eqb k k0) eqn:E; [| reflexivity].
    apply String.eqb_eq in E. contradiction.
  - destruct (String.eqb k' k) eqn:E; simpl.
    + apply String.eqb_eq in E. subst k'.
      destruct (String.eqb k k0) eqn:E0; [| reflexivity].
      apply String.eqb_eq in E0. contradiction.
    + rewrite IH. reflexivity.
Qed.

(** What a refresh leaves in each field of a status that is held. *)
Lemma refreshStatus_field (j prev : JsVal) (now : float) (k : string) :
  ToBoolean prev = true ->
  getOwn (refreshStatus j now prev) k
  = if String.eqb k "timestamp" then j ?. "timestamp" ?? JNum now
    else if String.eqb k "height"
         then if Number_isFinite (j ?. "height")
              then getOwn j "height" else getOwn prev "height"
    else if String.eqb k "mempoolSize"
         then if Number_isFinite (j ?. "mempoolSize")
              then getOwn j "mempoolSize" else getOwn prev "mempoolSize"
    else lookup k (spread prev).
Proof.
  intros Htruthy. unfold refreshStatus. rewrite Htruthy. cbn [negb getOwn].
  destruct (String.eqb k "timestamp") eqn:E1.
  { apply String.eqb_eq in E1. subst k. apply lookup_setProp_same. }
  rewrite lookup_setProp_other
    by (intros E; subst k; discriminate E1).
  destruct (String.eqb k "height") eqn:E2.
  { apply String.eqb_eq in E2. subst k. apply lookup_setProp_same. }
  rewrite lookup_setProp_other
    by (intros E; subst k; discriminate E2).
  destruct (String.eqb k "mempoolSize") eqn:E3.
  { apply String.eqb_eq in E3. subst k. apply lookup_setProp_same. }
  rewrite lookup_setProp_other
    by (intros E; subst k; discriminate E3).
  reflexivity.
Qed.

(** X16. The mempool refresh changes nothing but [mempoolSize], [height]
    and [timestamp]: every other field of the status held, the price fields
    and the pools among them, stays as the last full load left it; and
    while no status is held, the refresh stores none. *)
Theorem refresh_keeps_other_fields (j prev : JsVal) (now : float) :
  (forall props k,
     prev = JObj props ->
     k <> "mempoolSize" -> k <> "height" -> k <> "timestamp" ->
     getOwn (refreshStatus j now prev) k = getOwn prev k)
  /\ (ToBoolean prev = false -> refreshStatus j now prev = prev).
Proof.
  split.
  - intros props k Hprev H1 H2 H3. subst prev.
    rewrite refreshStatus_field by reflexivity.
    apply String.eqb_neq in H1, H2, H3. rewrite H1, H2, H3. reflexivity.
  - intros Hfalsy. unfold refreshStatus. rewrite Hfalsy. reflexivity.
Qed.

(** X17. The mempool refresh takes a [height] or a [mempoolSize] from the
    response only when it is a finite number, and keeps the one it holds
    otherwise: a field that holds a finite number still does after any
    refresh. *)
Theorem refresh_keeps_finite_numbers (j prev : JsVal) (now : float)
  (k : string) :
  ToBoolean prev = true ->
  k = "height" \/ k = "mempoolSize" ->
  (Number_isFinite (j ?. k) = true ->
   getOwn (refreshStatus j now prev) k = j ?. k)
  /\ (Number_isFinite (j ?. k) = false ->
      getOwn (refreshStatus j now prev) k = getOwn prev k)
  /\ (Number_isFinite (getOwn prev k) = true ->
      Number_isFinite (getOwn (refreshStatus j now prev) k) = true).
Proof.
  intros Htruthy Hk. rewrite refreshStatus_field by exact Htruthy.
  assert (Hj : Number_isFinite (j ?. k) = true -> getOwn j k = j ?. k).
  { unfold optMember. destruct (isNullish j); [discriminate | reflexivity]. }
  destruct Hk; subst k; cbn [String.eqb Ascii.eqb Bool.eqb];
    (destruct (Number_isFinite (j ?. _)) eqn:Hfin;
     [ rewrite (Hj eq_refl); repeat split; try discriminate;
       intros _; exact Hfin
     | repeat split; try discriminate; intros H; exact H ]).
Qed.

(** X18. Applying the refresh of one response a second time changes no
    field, when the response carries a [timestamp]. *)
Theorem refresh_twice (j prev : JsVal) (now later : float) (k : string) :
  isNullish (j ?. "timestamp") = false ->
  getOwn (refreshStatus j later (refreshStatus j now prev)) k
  = getOwn (refreshStatus j now prev) k.
Proof.
  intros Hstamp. destruct (ToBoolean prev) eqn:Htruthy.
  - assert (Hheld : ToBoolean (refreshStatus j now prev) = true).
    { unfold refreshStatus. rewrite Htruthy. reflexivity. }
    rewrite (refreshStatus_field j (refreshStatus j now prev) later k Hheld).
    rewrite !(refreshStatus_field j prev now _ Htruthy).
    cbn [String.eqb Ascii.eqb Bool.eqb].
    unfold coalesce. rewrite Hstamp.
    destruct (String.eqb k "timestamp") eqn:E1; [reflexivity |].
    destruct (String.eqb k "height") eqn:E2;
      [destruct (Number_isFinite (j ?. "height")); reflexivity |].
    destruct (String.eqb k "mempoolSize") eqn:E3;
      [destruct (Number_isFinite (j ?. "mempoolSize")); reflexivity |].
    unfold refreshStatus. rewrite Htruthy. cbn [negb spread].
    rewrite !lookup_setProp_other;
      try (intros E; subst k; discriminate).
    reflexivity.
  - unfold refreshStatus. rewrite Htruthy. cbn [negb]. rewrite Htruthy.
    reflexivity.
Qed.

Section CardExtras.

Variable StringToNumber : string -> float.
Variable NumberToString : float -> string.
Variable NumberFormat : bool -> nat -> float -> string.

Abbreviation treasury' := (treasury StringToNumber NumberToString).
Abbreviation fmtUsd' := (fmtUsd NumberFormat).

(** X19. While the status carries no price ([priceUsd] is [null]), the
    lockbox card multiplies a finite lockbox by the 0 that [null] converts
    to: the USD value is a zero, which [fmtUsd] formats as an amount with
    two decimals instead of printing the placeholder. Before any status is
    held, the value is [NaN] and the placeholder is printed. *)
Theorem treasury_without_price (data : JsVal) (lockboxValue : float) :
  data ?. "priceUsd" = JNull ->
  (data ?. "valuePools" ?? JObj []) ?. "lockbox" = JNum lockboxValue ->
  PrimFloat.is_finite lockboxValue = true ->
  (exists usd,
     treasury' data = Normal usd
     /\ (usd = 0 \/ usd = -0)
     /\ fmtUsd' (JNum usd) = NumberFormat true 2 usd)
  /\ treasury' JNull = Normal nan
  /\ fmtUsd' (JNum nan) = "--".
Proof.
  intros Hprice Hlockbox Hfin. split; [| split; reflexivity].
  exists (lockboxValue * 0). unfold treasury, multiply.
  rewrite Hlockbox, Hprice. cbn [ToNumber bind].
  split; [reflexivity |].
  destruct (mul_zero lockboxValue Hfin) as [Hz | Hz]; rewrite Hz;
    (split; [auto | reflexivity]).
Qed.

End CardExtras.

(** ** Further properties: the upstream fetcher *)

Import Upstream.

Section FetchExtras.

Variable StringToNumber : string -> float.
Variable NumberToString : float -> string.
Variable JSON_parse : string -> option JsVal.

Abbreviation fetch := (getJSON NumberToString JSON_parse).
Abbreviation handler4 := (statusHandler StringToNumber NumberToString).
Abbreviation build4 := (buildSnapshot StringToNumber NumberToString).

Lemma getJSON_failed (url : string) (err : JsVal) :
  exists e, fetch url (Failed err) = Throw e.
Proof.
  unfold getJSON. destruct (failureStatus err) as [status | e];
    [| exists e; reflexivity].
  cbn [bind]. destruct (ToString NumberToString status) as [text | e];
    eexists; reflexivity.
Qed.

(** X20. A failed request never resolves, whatever was thrown. At the
    handler, a failed info request answers 500 whatever the price and
    mempool requests did, and a failed mempool request answers what a
    [null] mempool payload does. *)
Theorem failed_requests_at_the_handler (err : JsVal)
  (price other : Completion JsVal) (now : float) :
  (forall url, exists e, fetch url (Failed err) = Throw e)
  /\ handler4 price (fetch INFO_URL (Failed err)) other now
     = {| status := 500; body := ErrorBody "upstream_failed" |}
  /\ handler4 price other (fetch MEMPOOL_URL (Failed err)) now
     = handler4 price other (Normal JNull) now.
Proof.
  split; [| split].
  - intros url. exact (getJSON_failed url err).
  - destruct (getJSON_failed INFO_URL err) as [e He]. rewrite He.
    unfold statusHandler. destruct price; reflexivity.
  - destruct (getJSON_failed MEMPOOL_URL err) as [e He]. rewrite He.
    reflexivity.
Qed.

(** X21. The message of the rejection names the URL and one status: the
    HTTP status of the response when the error has one, else the code of the
    error, else [request_failed]. *)
Theorem rejection_names_one_status (url : string) (err : JsVal) :
  isNullish err = false ->
  (forall n, getOwn err "response" ?. "status" = JNum n ->
             fetch url (Failed err)
             = Throw (Error (url ++ " -> HTTP " ++ NumberToString n)))
  /\ (forall code,
        isNullish (getOwn err "response" ?. "status") = true ->
        getOwn err "code" = JStr code ->
        fetch url (Failed err) = Throw (Error (url ++ " -> HTTP " ++ code)))
  /\ (isNullish (getOwn err "response" ?. "status") = true ->
      isNullish (getOwn err "code") = true ->
      fetch url (Failed err)
      = Throw (Error (url ++ " -> HTTP request_failed"))).
Proof.
  intros Herr. unfold getJSON, failureStatus, member. rewrite Herr.
  cbn [bind]. repeat split.
  - intros n Hn. rewrite Hn. reflexivity.
  - intros code Hstatus Hcode. rewrite Hstatus, Hcode. reflexivity.
  - intros Hstatus Hcode. rewrite Hstatus. cbn [bind].
    rewrite (coalesce_absent _ _ Hcode). reflexivity.
Qed.

(** X22. A body that is text and no JSON is handed over as it is, and an
    info request that answers with such a body fails nothing: with a plain
    price entry the handler answers 200, with a [null] height. *)
Theorem text_body_is_tolerated (res priceData : JsVal) (text : string)
  (mempool : Completion JsVal) (now : float) :
  getOwn res "data" = JStr text ->
  JSON_parse text = None ->
  plainEntry (priceEntryOf priceData) = true ->
  fetch INFO_URL (Responded res) = Normal (JStr text)
  /\ exists s,
       handler4 (Normal priceData) (fetch INFO_URL (Responded res)) mempool
         now
       = {| status := 200; body := SnapshotBody s |}
       /\ height s = JNull.
Proof.
  intros Hdata Hparse Hentry.
  assert (Hfetch : fetch INFO_URL (Responded res) = Normal (JStr text)).
  { unfold getJSON, normalizeJSON. rewrite Hdata, Hparse. reflexivity. }
  split; [exact Hfetch |]. rewrite Hfetch.
  unfold statusHandler. cbn [bind].
  destruct (buildSnapshot_returns StringToNumber NumberToString priceData
              (JStr text)
              (match mempool with Normal v => v | Throw _ => JNull end) now
              Hentry eq_refl) as [s Hs].
  rewrite Hs. exists s. split; [reflexivity |].
  destruct (buildSnapshot_returned _ _ _ _ _ _ _ Hs)
    as [_ [_ [_ [_ [_ [_ [_ [Hheight _]]]]]]]].
  rewrite Hheight. reflexivity.
Qed.

End FetchExtras.

(** ** The further properties on concrete payloads and states *)

Abbreviation exFetch := (getJSON exampleIntegerToString exampleParse).

(** The first transparent record of [repeatedRecords] is the one read. *)
Lemma find_takes_first_match_witness :
  Forall (fun q => hasId "transparent" q = Normal false)
    [poolRecord "sprout" (JNum 1)]
  /\ hasId "transparent" (poolRecord "transparent" (JNum 7)) = Normal true
  /\ exFind repeatedRecords "transparent" = Normal 7.
Proof.
  assert (Hbefore : Forall (fun q => hasId "transparent" q = Normal false)
                      [poolRecord "sprout" (JNum 1)])
    by (repeat constructor).
  split; [exact Hbefore |]. split; [reflexivity |].
  exact (find_takes_first_match exampleStringToNumber exampleNumberToString
           "transparent" [poolRecord "sprout" (JNum 1)]
           [JNull; poolRecord "transparent" (JNum 9)]
           (poolRecord "transparent" (JNum 7)) Hbefore eq_refl).
Defined.

(** [nullRecordInfo] starts with a [null]. *)
Lemma null_record_ahead_answers_500_witness :
  poolRecords nullRecordInfo = [] ++ JNull :: [poolRecord "sprout" (JNum 1)]
  /\ Forall (fun q => hasId "transparent" q = Normal false) []
  /\ exReconcile nullRecordInfo JNull = Throw TypeError
  /\ exHandler (Normal marketsPrice) (Normal nullRecordInfo)
       (Normal emptyMempool) exampleNow
     = {| status := 500; body := ErrorBody "upstream_failed" |}.
Proof.
  split; [reflexivity |]. split; [constructor |].
  exact (null_record_ahead_answers_500 exampleStringToNumber
           exampleNumberToString nullRecordInfo []
           [poolRecord "sprout" (JNum 1)] (Normal marketsPrice)
           (Normal emptyMempool) JNull exampleNow eq_refl
           (Forall_nil _)).
Defined.

(** A body of text as the info payload, with and without a supply. *)
Lemma no_pool_records_witness :
  poolRecords (JStr "Service Unavailable") = []
  /\ PrimFloat.is_finite 16000000 = true
  /\ (0 <? 16000000) = true
  /\ exReconcile (JStr "Service Unavailable") (JNum 16000000)
     = Normal {| transparent := 16000000; sprout := 0; sapling := 0;
                 orchard := 0; lockbox := 0; shielded := 0;
                 totalChain := 16000000 |}
  /\ exReconcile (JStr "Service Unavailable") JNull
     = Normal {| transparent := 0; sprout := 0; sapling := 0; orchard := 0;
                 lockbox := 0; shielded := 0; totalChain := 0 |}.
Proof.
  do 3 (split; [reflexivity |]). split.
  - exact (proj1 (no_pool_records exampleStringToNumber exampleNumberToString
                    (JStr "Service Unavailable") (JNum 16000000) eq_refl)
             16000000 eq_refl eq_refl eq_refl).
  - apply (proj2 (no_pool_records exampleStringToNumber exampleNumberToString
                    (JStr "Service Unavailable") JNull eq_refl)).
    intros c Hc. discriminate Hc.
Defined.

(** A transparent pool of 100 against a supply of 20. *)
Lemma positive_transparent_is_kept_witness :
  exFind (poolRecords plainInfo) "transparent" = Normal 100
  /\ (0 <? 100) = true
  /\ exReconcile plainInfo (JNum 20) = Normal overriddenPools
  /\ transparent overriddenPools = 100.
Proof.
  do 3 (split; [reflexivity |]).
  exact (positive_transparent_is_kept exampleStringToNumber
           exampleNumberToString plainInfo (JNum 20) 100 overriddenPools
           eq_refl eq_refl eq_refl).
Defined.

(** [true] is sanitized to 1, and 1 to 1. *)
Lemma sanitizeNumber_idempotent_witness :
  sanitizeNumber exampleStringToNumber exampleNumberToString (JBool true)
  = Normal (Some 1)
  /\ sanitizeNumber exampleStringToNumber exampleNumberToString (JNum 1)
     = Normal (Some 1).
Proof.
  split; [reflexivity |].
  exact (sanitizeNumber_idempotent exampleStringToNumber
           exampleNumberToString (JBool true) (Some 1) eq_refl).
Defined.

(** [marketsPrice] and [plainInfo] with a failed mempool request. *)
Lemma plain_payloads_answer_200_witness :
  plainEntry (priceEntryOf marketsPrice) = true
  /\ forallb wellFormedRecord (poolRecords plainInfo) = true
  /\ status (exHandler (Normal marketsPrice) (Normal plainInfo)
               (Throw upstreamError) exampleNow) = 200%Z.
Proof.
  do 2 (split; [reflexivity |]).
  exact (plain_payloads_answer_200 exampleStringToNumber
           exampleNumberToString marketsPrice plainInfo (Throw upstreamError)
           exampleNow eq_refl eq_refl).
Defined.

(** A height of 0 is kept, a nested height is found, and a body of text has
    none. *)
Lemma height_is_first_present_witness :
  isNullish (genesisInfo ?. "blocks") = false
  /\ heightOf genesisInfo = JNum 0
  /\ isNullish (nestedInfo ?. "blocks") = true
  /\ isNullish (nestedInfo ?. "blockchain" ?. "blocks") = false
  /\ heightOf nestedInfo = JNum 2500000
  /\ heightOf (JStr "Service Unavailable") = JNull.
Proof.
  split; [reflexivity |].
  split; [exact (proj1 (height_is_first_present genesisInfo) eq_refl) |].
  do 2 (split; [reflexivity |]).
  split; [exact (proj1 (proj2 (height_is_first_present nestedInfo))
                   eq_refl eq_refl) |].
  exact (proj1 (proj2 (proj2 (proj2 (height_is_first_present
                                       (JStr "Service Unavailable")))))
           eq_refl eq_refl eq_refl).
Defined.

(** A mempool of two transactions, an object with a [size] of 0, an object
    with a [length], and a body of text. *)
Lemma mempoolSize_is_present_witness :
  mempoolSizeOf (JArr [JStr "a"; JStr "b"]) = JNum 2
  /\ isNullish (lookup "size" [("size", JNum 0)]) = false
  /\ mempoolSizeOf (JObj [("size", JNum 0)]) = JNum 0
  /\ isNullish (lookup "size" [("length", JNum 3)]) = true
  /\ isNullish (lookup "length" [("length", JNum 3)]) = false
  /\ mempoolSizeOf (JObj [("length", JNum 3)]) = JNum 3
  /\ isPrimitive (JStr "Service Unavailable") = true
  /\ mempoolSizeOf (JStr "Service Unavailable") = JNum 0.
Proof.
  split; [exact (proj1 (proj2 (mempoolSize_is_present exampleStringToNumber
                                 exampleNumberToString
                                 (JArr [JStr "a"; JStr "b"])))
                   [JStr "a"; JStr "b"] eq_refl) |].
  split; [reflexivity |].
  split; [exact (proj1 (proj2 (proj2 (mempoolSize_is_present
                                        exampleStringToNumber
                                        exampleNumberToString
                                        (JObj [("size", JNum 0)]))))
                   [("size", JNum 0)] eq_refl eq_refl) |].
  do 2 (split; [reflexivity |]).
  split; [exact (proj1 (proj2 (proj2 (proj2 (mempoolSize_is_present
                                               exampleStringToNumber
                                               exampleNumberToString
                                               (JObj [("length", JNum 3)])))))
                   [("length", JNum 3)] eq_refl eq_refl eq_refl) |].
  split; [reflexivity |].
  exact (proj1 (proj2 (proj2 (proj2 (proj2 (mempoolSize_is_present
                                              exampleStringToNumber
                                              exampleNumberToString
                                              (JStr "Service Unavailable"))))))
           eq_refl).
Defined.

(** An empty array as the price payload. *)
Lemma missing_price_entry_witness :
  priceEntryOf (JArr []) = JNull
  /\ exBuild (JArr []) plainInfo emptyMempool exampleNow
     = Normal {| timestamp := exampleNow;
                 priceUsd := None;
                 priceChange24h := None;
                 marketCapUsd := None;
                 marketCapChange24h := None;
                 marketCapChangeUsd := None;
                 circulatingSupply := None;
                 height := JNum 2500000;
                 mempoolSize := JNum 0;
                 valuePools := plainPools |}.
Proof.
  split; [reflexivity |].
  rewrite (missing_price_entry exampleStringToNumber exampleNumberToString
             (JArr []) plainInfo emptyMempool exampleNow eq_refl).
  reflexivity.
Defined.

(** The simple price payload of a price of 40.5. *)
Lemma simple_price_shape_witness :
  PrimFloat.is_finite 40.5 = true
  /\ PrimFloat.is_finite (-1.25) = true
  /\ PrimFloat.is_finite 650000000 = true
  /\ exBuild (simplePrice 40.5 (-1.25) 650000000) plainInfo emptyMempool
       exampleNow
     = Normal {| timestamp := exampleNow;
                 priceUsd := Some 40.5;
                 priceChange24h := Some (-1.25);
                 marketCapUsd := Some 650000000;
                 marketCapChange24h := None;
                 marketCapChangeUsd := None;
                 circulatingSupply := None;
                 height := JNum 2500000;
                 mempoolSize := JNum 0;
                 valuePools := plainPools |}.
Proof.
  do 3 (split; [reflexivity |]).
  rewrite (simple_price_shape exampleStringToNumber exampleNumberToString
             40.5 (-1.25) 650000000 plainInfo emptyMempool exampleNow
             eq_refl eq_refl eq_refl).
  reflexivity.
Defined.

(** [afterMarkets] is a state of the cache, with its history. *)
Lemma afterMarkets_history :
  history 60000 [Settle 0 (Normal marketsPrice) 1001; Call 1000]
    afterMarkets.
Proof.
  unfold afterMarkets.
  eapply history_step;
    [eapply history_step; [apply history_initial | apply step_call] |].
  apply step_settle. left. reflexivity.
Qed.

Lemma afterMarkets_reachable : reachable 60000 afterMarkets.
Proof.
  apply reachable_history. eexists. exact afterMarkets_history.
Qed.


(** The value and the timestamp of [afterMarkets]. *)
Lemma value_has_its_timestamp_witness :
  history 60000 [Settle 0 (Normal marketsPrice) 1001; Call 1000] afterMarkets
  /\ stamped [Settle 0 (Normal marketsPrice) 1001; Call 1000]
       (priceCache afterMarkets).
Proof.
  split; [exact afterMarkets_history |].
  exact (value_has_its_timestamp 60000 _ afterMarkets afterMarkets_history).
Defined.

(** A call 1 ms after [marketsPrice] was stored, the TTL being [NaN]. *)
Lemma nan_ttl_never_hits_witness :
  promise (priceCache afterMarkets) = None
  /\ requests afterMarkets = 1%nat
  /\ requests (snd (getCachedPriceData nan 1002 afterMarkets)) = 2%nat.
Proof.
  do 2 (split; [reflexivity |]).
  exact (proj2 (nan_ttl_never_hits 1002 afterMarkets) eq_refl).
Defined.

(** The refresh of [afterMarkets] fails, and the next call starts the third
    request. *)
Lemma failure_is_retried_witness :
  reachable 60000 (snd (getCachedPriceData 60000 70000 afterMarkets))
  /\ In 1%nat (inFlight (snd (getCachedPriceData 60000 70000 afterMarkets)))
  /\ fresh 60000 70002
       (priceCache (snd (getCachedPriceData 60000 70000 afterMarkets)))
     = false
  /\ fst (getCachedPriceData 60000 70002
            (settle 1 (Throw upstreamError) 70001
               (snd (getCachedPriceData 60000 70000 afterMarkets))))
     = FetchPromise 2.
Proof.
  assert (Hreach : reachable 60000
                     (snd (getCachedPriceData 60000 70000 afterMarkets))).
  { eapply reachable_step; [exact afterMarkets_reachable | apply step_call]. }
  assert (Hin : In 1%nat
                  (inFlight
                     (snd (getCachedPriceData 60000 70000 afterMarkets))))
    by (left; reflexivity).
  split; [exact Hreach |]. split; [exact Hin |]. split; [reflexivity |].
  exact (proj1 (failure_is_retried 60000 _ 1%nat upstreamError 70001 70002
                  Hreach Hin eq_refl)).
Defined.

(** The refresh of a held status by [refreshResponse], whose height is a
    string. *)
Lemma refresh_keeps_other_fields_witness :
  getOwn (refreshStatus refreshResponse exampleNow
            (clientStatus (JNum 40.5) (JNum 4))) "priceUsd"
  = JNum 40.5
  /\ ToBoolean JNull = false
  /\ refreshStatus refreshResponse exampleNow JNull = JNull.
Proof.
  split.
  - apply (proj1 (refresh_keeps_other_fields refreshResponse
                    (clientStatus (JNum 40.5) (JNum 4)) exampleNow)
             _ "priceUsd" eq_refl);
      intros H; discriminate H.
  - split; [reflexivity |].
    exact (proj2 (refresh_keeps_other_fields refreshResponse JNull exampleNow)
             eq_refl).
Defined.

Lemma refresh_keeps_finite_numbers_witness :
  ToBoolean (clientStatus (JNum 40.5) (JNum 4)) = true
  /\ Number_isFinite (refreshResponse ?. "mempoolSize") = true
  /\ getOwn (refreshStatus refreshResponse exampleNow
               (clientStatus (JNum 40.5) (JNum 4))) "mempoolSize"
     = JNum 15
  /\ Number_isFinite (refreshResponse ?. "height") = false
  /\ getOwn (refreshStatus refreshResponse exampleNow
               (clientStatus (JNum 40.5) (JNum 4))) "height"
     = JNum 2500000.
Proof.
  do 2 (split; [reflexivity |]).
  split; [exact (proj1 (refresh_keeps_finite_numbers refreshResponse
                          (clientStatus (JNum 40.5) (JNum 4)) exampleNow
                          "mempoolSize" eq_refl (or_intror eq_refl))
                   eq_refl) |].
  split; [reflexivity |].
  exact (proj1 (proj2 (refresh_keeps_finite_numbers refreshResponse
                         (clientStatus (JNum 40.5) (JNum 4)) exampleNow
                         "height" eq_refl (or_introl eq_refl)))
           eq_refl).
Defined.

Lemma refresh_twice_witness :
  isNullish (refreshResponse ?. "timestamp") = false
  /\ getOwn (refreshStatus refreshResponse 1700000020000
               (refreshStatus refreshResponse exampleNow
                  (clientStatus (JNum 40.5) (JNum 4)))) "timestamp"
     = JNum 1700000010000.
Proof.
  split; [reflexivity |].
  rewrite (refresh_twice refreshResponse (clientStatus (JNum 40.5) (JNum 4))
             exampleNow 1700000020000 "timestamp" eq_refl).
  reflexivity.
Defined.

(** A lockbox of 4 and no price. *)
Lemma treasury_without_price_witness :
  clientStatus JNull (JNum 4) ?. "priceUsd" = JNull
  /\ (clientStatus JNull (JNum 4) ?. "valuePools" ?? JObj []) ?. "lockbox"
     = JNum 4
  /\ PrimFloat.is_finite 4 = true
  /\ exists usd,
       treasury exampleStringToNumber exampleNumberToString
         (clientStatus JNull (JNum 4))
       = Normal usd
       /\ (usd = 0 \/ usd = -0).
Proof.
  do 3 (split; [reflexivity |]).
  destruct (proj1 (treasury_without_price exampleStringToNumber
                     exampleNumberToString exampleNumberFormat
                     (clientStatus JNull (JNum 4)) 4 eq_refl eq_refl eq_refl))
    as [usd [Husd [Hzero _]]].
  exists usd. split; [exact Husd | exact Hzero].
Defined.

(** A request refused with 429, one that timed out, one with no detail. *)
Lemma rejection_names_one_status_witness :
  isNullish refusedError = false
  /\ exFetch INFO_URL (Failed refusedError)
     = Throw (Error (INFO_URL ++ " -> HTTP 429"))
  /\ exFetch INFO_URL (Failed timeoutError)
     = Throw (Error (INFO_URL ++ " -> HTTP ECONNABORTED"))
  /\ exFetch INFO_URL (Failed bareError)
     = Throw (Error (INFO_URL ++ " -> HTTP request_failed")).
Proof.
  split; [reflexivity |].
  split; [exact (proj1 (rejection_names_one_status exampleIntegerToString
                          exampleParse INFO_URL refusedError eq_refl)
                   429 eq_refl) |].
  split; [exact (proj1 (proj2 (rejection_names_one_status
                                 exampleIntegerToString exampleParse INFO_URL
                                 timeoutError eq_refl))
                   "ECONNABORTED" eq_refl eq_refl) |].
  exact (proj2 (proj2 (rejection_names_one_status exampleIntegerToString
                         exampleParse INFO_URL bareError eq_refl))
           eq_refl eq_refl).
Defined.

(** An info request answered with text. *)
Lemma text_body_is_tolerated_witness :
  getOwn textResponse "data" = JStr "Service Unavailable"
  /\ exampleParse "Service Unavailable" = None
  /\ plainEntry (priceEntryOf marketsPrice) = true
  /\ exFetch INFO_URL (Responded textResponse)
     = Normal (JStr "Service Unavailable")
  /\ status (statusHandler exampleStringToNumber exampleIntegerToString
               (Normal marketsPrice) (exFetch INFO_URL (Responded textResponse))
               (Throw upstreamError) exampleNow) = 200%Z.
Proof.
  do 3 (split; [reflexivity |]).
  destruct (text_body_is_tolerated exampleStringToNumber
              exampleIntegerToString exampleParse textResponse marketsPrice
              "Service Unavailable" (Throw upstreamError) exampleNow
              eq_refl eq_refl eq_refl) as [Hfetch [s [Hs _]]].
  split; [exact Hfetch |]. rewrite Hs. reflexivity.
Defined.
